(** * Library synchronisation and chapter-audio cache of the reader application

    A shallow embedding of the [App] component (the synchronisation
    callbacks [refreshLibrary], [persistLibrary], [handleSyncUpdate], the
    mutation handlers [handleDeleteBook] and [handleUpload], the generation
    callback [handleChapterPlay] and the effect that drives the pulls)
    together with the data model of [types.ts].

    Conventions of the embedding.
    - The component state is the record [App]; every [setX] of the source is
      a function on that record.  A functional update
      [setSyncState(prev => ...)] reads the state it is applied to, while a
      plain identifier such as [books] or [syncState] inside a callback is
      the value captured when the callback was created.  Captured values are
      therefore explicit arguments (or fields of a continuation record).
    - An [async] callback is cut at its [await]: the part before it is one
      function, returning the continuation data when a request was issued;
      the parts after it are one function per outcome (resolved / thrown).
    - Calls that leave the component (remote services, [alert], [console],
      timers) are appended to [trace], oldest first.
    - [Date.now()] is an explicit argument [now].
    - A value thrown into a [catch] is a [Thrown]: reading [err.message] of
      [null] or [undefined] throws again, of anything else it does not.
    - After the callback of an event has run, the component renders; when the
      routing fields of [syncState] changed, the pull effect runs again
      ([rerender]). *)

From stdpp Require Import base strings list gmap pretty.
From Stdlib Require Import ZArith Lia Ascii.

Local Open Scope string_scope.
Local Open Scope Z_scope.

(** ** Data model ([types.ts]) *)

Record Chapter := mkChapter {
  ch_id : string;
  ch_title : string;
  ch_text : string;
  audioUrl : option string;
  duration : option Z
}.

Record Book := mkBook {
  bk_id : string;
  bk_title : string;
  author : string;
  coverImage : option string;
  chapters : list Chapter;
  createdAt : Z
}.

Record VoiceOption := mkVoiceOption {
  vo_id : string;
  vo_name : string;
  description : string;
  modelVoice : string
}.

Inductive ProcessingStatus :=
  IDLE | EXTRACTING | SPLITTING | GENERATING_AUDIO | COMPLETED | ERROR.

Inductive SyncProvider := public | github | none.

Record SyncState := mkSyncState {
  provider : SyncProvider;
  roomId : option string;
  githubToken : option string;
  gistId : option string;
  lastSynced : option Z;
  isSyncing : bool
}.

(** [Partial<SyncState>]: every key may be missing. *)
Record PartialSyncState := mkPartial {
  p_provider : option SyncProvider;
  p_roomId : option (option string);
  p_githubToken : option (option string);
  p_gistId : option (option string);
  p_lastSynced : option (option Z);
  p_isSyncing : option bool
}.

#[global] Instance ProcessingStatus_eq_dec : EqDecision ProcessingStatus.
Proof. solve_decision. Defined.
#[global] Instance SyncProvider_eq_dec : EqDecision SyncProvider.
Proof. solve_decision. Defined.

(** Truthiness of a [string | null | undefined] value: [null], [undefined]
    and the empty string are falsy. *)
Definition truthy (s : option string) : bool :=
  match s with
  | Some s => negb (String.eqb s "")
  | None => false
  end.

(** [URDU_VOICES[0]] of [constants.ts]. *)
Definition URDU_VOICES_0 : VoiceOption :=
  mkVoiceOption "1" "Master (Mualim)"
    "Deep, authoritative voice of a veteran Urdu scholar. Perfect for classics."
    "Kore".

(** ** Calls leaving the component *)

(** A callback handed to a timer.  The only one in the component is
    [refreshLibrary], which is memoised on the four routing fields of
    [syncState]; [captured] is the [syncState] of the render that created
    it. *)
Inductive Task :=
| RefreshLibrary (captured : SyncState) (silent : bool).

Inductive Effect :=
| GenerateAudio (text voice : string)
| PullFromGitHub (token gist : string)
| PullFromPublic (room : option string)
| PushToGitHub (bs : list Book) (token gist : string)
| PushToPublic (bs : list Book) (room : string)
| Alert (msg : string)
| ConsoleWarn (msg : string)
| ConsoleError
| ExtractAndSplitText
| SetTimeout (task : Task) (delay : Z)
| SetInterval (task : Task) (delay : Z)
| ClearInterval.

Definition isGenerateAudio (e : Effect) : bool :=
  match e with GenerateAudio _ _ => true | _ => false end.

Definition isPull (e : Effect) : bool :=
  match e with PullFromGitHub _ _ | PullFromPublic _ => true | _ => false end.

Definition isPush (e : Effect) : bool :=
  match e with PushToGitHub _ _ _ | PushToPublic _ _ => true | _ => false end.

Definition isUserNotice (e : Effect) : bool :=
  match e with Alert _ => true | _ => false end.

(** ** Component state *)

Record App := mkApp {
  books : list Book;
  syncState : SyncState;
  hasLoadedInitially : bool;
  selectedBook : option Book;
  activeChapter : option Chapter;
  selectedVoice : VoiceOption;
  status : ProcessingStatus;
  showUploader : bool;
  showSyncModal : bool;
  localStorage : gmap string string;
  trace : list Effect
}.

Definition setBooks (v : list Book) (st : App) : App :=
  mkApp v (syncState st) (hasLoadedInitially st) (selectedBook st)
        (activeChapter st) (selectedVoice st) (status st) (showUploader st)
        (showSyncModal st) (localStorage st) (trace st).

Definition setSyncState (f : SyncState -> SyncState) (st : App) : App :=
  mkApp (books st) (f (syncState st)) (hasLoadedInitially st) (selectedBook st)
        (activeChapter st) (selectedVoice st) (status st) (showUploader st)
        (showSyncModal st) (localStorage st) (trace st).

Definition setHasLoadedInitially (v : bool) (st : App) : App :=
  mkApp (books st) (syncState st) v (selectedBook st)
        (activeChapter st) (selectedVoice st) (status st) (showUploader st)
        (showSyncModal st) (localStorage st) (trace st).

Definition setSelectedBook (v : option Book) (st : App) : App :=
  mkApp (books st) (syncState st) (hasLoadedInitially st) v
        (activeChapter st) (selectedVoice st) (status st) (showUploader st)
        (showSyncModal st) (localStorage st) (trace st).

Definition setActiveChapter (v : option Chapter) (st : App) : App :=
  mkApp (books st) (syncState st) (hasLoadedInitially st) (selectedBook st)
        v (selectedVoice st) (status st) (showUploader st)
        (showSyncModal st) (localStorage st) (trace st).

Definition setStatus (v : ProcessingStatus) (st : App) : App :=
  mkApp (books st) (syncState st) (hasLoadedInitially st) (selectedBook st)
        (activeChapter st) (selectedVoice st) v (showUploader st)
        (showSyncModal st) (localStorage st) (trace st).

Definition setShowUploader (v : bool) (st : App) : App :=
  mkApp (books st) (syncState st) (hasLoadedInitially st) (selectedBook st)
        (activeChapter st) (selectedVoice st) (status st) v
        (showSyncModal st) (localStorage st) (trace st).

Definition setShowSyncModal (v : bool) (st : App) : App :=
  mkApp (books st) (syncState st) (hasLoadedInitially st) (selectedBook st)
        (activeChapter st) (selectedVoice st) (status st) (showUploader st)
        v (localStorage st) (trace st).

Definition setLocalStorage (f : gmap string string -> gmap string string)
    (st : App) : App :=
  mkApp (books st) (syncState st) (hasLoadedInitially st) (selectedBook st)
        (activeChapter st) (selectedVoice st) (status st) (showUploader st)
        (showSyncModal st) (f (localStorage st)) (trace st).

Definition emit (e : Effect) (st : App) : App :=
  mkApp (books st) (syncState st) (hasLoadedInitially st) (selectedBook st)
        (activeChapter st) (selectedVoice st) (status st) (showUploader st)
        (showSyncModal st) (localStorage st) (trace st ++ [e]).

(** Updates of single [SyncState] fields, as written with the spread
    [{ ...prev, field: v }]. *)
Definition withProvider (v : SyncProvider) (s : SyncState) : SyncState :=
  mkSyncState v (roomId s) (githubToken s) (gistId s) (lastSynced s) (isSyncing s).

Definition withLastSynced (v : option Z) (s : SyncState) : SyncState :=
  mkSyncState (provider s) (roomId s) (githubToken s) (gistId s) v (isSyncing s).

Definition withIsSyncing (v : bool) (s : SyncState) : SyncState :=
  mkSyncState (provider s) (roomId s) (githubToken s) (gistId s) (lastSynced s) v.

(** ** Generation: [handleChapterPlay] *)

(** What the callback has captured when it suspends at
    [await GeminiService.generateAudio(...)]. *)
Record PlayK := mkPlayK {
  k_chapter : Chapter;
  k_books : list Book;
  k_selectedBook : option Book
}.

(** The part of [handleChapterPlay] before the [await]. *)
Definition handleChapterPlay (chapter : Chapter) (st : App) : App * option PlayK :=
  if truthy (audioUrl chapter) then
    (setActiveChapter (Some chapter) st, None)
  else
    let st1 := setStatus GENERATING_AUDIO st in
    let st2 := emit (GenerateAudio (ch_text chapter) (modelVoice (selectedVoice st))) st1 in
    (st2, Some (mkPlayK chapter (books st) (selectedBook st))).

(** [selectedBook && b.id === selectedBook.id] *)
Definition isSelected (sel : option Book) (b : Book) : bool :=
  match sel with
  | Some s => String.eqb (bk_id b) (bk_id s)
  | None => false
  end.

(** [c.id === chapter.id ? { ...c, audioUrl } : c] *)
Definition attachChapter (cid : string) (url : string) (c : Chapter) : Chapter :=
  if String.eqb (ch_id c) cid
  then mkChapter (ch_id c) (ch_title c) (ch_text c) (Some url) (duration c)
  else c.

(** [{ ...b, chapters: b.chapters.map(...) }] *)
Definition updatedBook (cid : string) (url : string) (b : Book) : Book :=
  mkBook (bk_id b) (bk_title b) (author b) (coverImage b)
         (map (attachChapter cid url) (chapters b)) (createdAt b).

(** [books.map(b => ...)], whose callback also calls [setSelectedBook] for
    each matching book: the state is threaded through the traversal. *)
Fixpoint mapBooks (k : PlayK) (url : string) (bs : list Book) (st : App)
    : list Book * App :=
  match bs with
  | [] => ([], st)
  | b :: bs' =>
      if isSelected (k_selectedBook k) b then
        let ub := updatedBook (ch_id (k_chapter k)) url b in
        let '(r, st') := mapBooks k url bs' (setSelectedBook (Some ub) st) in
        (ub :: r, st')
      else
        let '(r, st') := mapBooks k url bs' st in
        (b :: r, st')
  end.

(** The array returned by that [books.map], the calls to [setSelectedBook]
    left aside (see [mapBooks_fst]). *)
Definition attachAudio (sel : option Book) (cid url : string) (bs : list Book)
    : list Book :=
  map (fun b => if isSelected sel b then updatedBook cid url b else b) bs.

(** [updatedBooks.find(...)?.chapters.find(c => c.id === chapter.id)] *)
Definition currentChapter (k : PlayK) (updatedBooks : list Book) : option Chapter :=
  match find (isSelected (k_selectedBook k)) updatedBooks with
  | Some b => find (fun c => String.eqb (ch_id c) (ch_id (k_chapter k))) (chapters b)
  | None => None
  end.

(** The [try] body after the [await] resolved with [url]. *)
Definition handleChapterPlay_resolved (k : PlayK) (url : string) (st : App) : App :=
  let '(updatedBooks, st1) := mapBooks k url (k_books k) st in
  let st2 := setBooks updatedBooks st1 in
  let st3 := match currentChapter k updatedBooks with
             | Some c => setActiveChapter (Some c) st2
             | None => st2
             end in
  setStatus IDLE st3.

(** The [catch] block. *)
Definition handleChapterPlay_rejected (k : PlayK) (st : App) : App :=
  let st1 := emit ConsoleError st in
  let st2 := setStatus ERROR st1 in
  emit (Alert "Failed to generate audio.") st2.

(** ** Pull cycle: [refreshLibrary] *)

(** [null] read as the empty string where the type checker has already
    established truthiness. *)
Definition str (s : option string) : string := default "" s.

(** Which request the [if]/[else if] of lines 51-55 issues.  [captured] is
    the [syncState] closed over by the memoised callback. *)
Definition pullRequest (captured : SyncState) : option Effect :=
  if bool_decide (provider captured = github)
     && truthy (githubToken captured) && truthy (gistId captured)
  then Some (PullFromGitHub (str (githubToken captured)) (str (gistId captured)))
  else if bool_decide (provider captured = public)
  then Some (PullFromPublic (if truthy (roomId captured) then roomId captured else None))
  else None.

(** [if (remoteBooks)] taken: an array, even an empty one, is truthy. *)
Definition refreshLibrary_applied (remoteBooks : list Book) (now : Z) (st : App) : App :=
  let st1 := setBooks remoteBooks st in
  let st2 := setSyncState (fun prev => withIsSyncing false (withLastSynced (Some now) prev)) st1 in
  setHasLoadedInitially true st2.

(** [else]: [remoteBooks] is [null]. *)
Definition refreshLibrary_skipped (st : App) : App :=
  setSyncState (withIsSyncing false) st.

(** The [try] body after the [await], for either result of the pull. *)
Definition refreshLibrary_resolved (remoteBooks : option (list Book)) (now : Z)
    (st : App) : App :=
  match remoteBooks with
  | Some bs => refreshLibrary_applied bs now st
  | None => refreshLibrary_skipped st
  end.

(** What an awaited promise can reject with.  Reading [.message] of [null] or
    [undefined] throws; of any other value it gives the message, or nothing a
    comparison with a string literal can match. *)
Inductive Thrown :=
| ThrownNullish
| ThrownObject (message : option string).

(** The [catch] block for a thrown value other than [null] and [undefined];
    [message] is its [err.message]. *)
Definition refreshLibrary_rejected (message : option string) (st : App) : App :=
  let st1 :=
    if bool_decide (message = Some "UNAUTHORIZED") then
      let st' := emit (ConsoleWarn "GitHub session expired or token revoked.") st in
      setSyncState (fun prev => withIsSyncing false (withProvider none prev)) st'
    else st in
  setSyncState (withIsSyncing false) st1.

(** The [catch] block for any thrown value.  For [null] and [undefined] the
    test [err.message === ...] of line 65 throws: the block is left before a
    setter was called, line 69 is not reached, and the promise of the
    callback rejects (no caller handles it). *)
Definition refreshLibrary_caught (err : Thrown) (st : App) : App :=
  match err with
  | ThrownNullish => st
  | ThrownObject message => refreshLibrary_rejected message st
  end.

(** The callback up to its [await].  The boolean tells whether a request was
    issued (and the callback suspended); when none is, [remoteBooks] is still
    [null] and the callback runs to its end at once. *)
Definition refreshLibrary (captured : SyncState) (silent : bool) (st : App)
    : App * bool :=
  let st1 := if silent then st else setSyncState (withIsSyncing true) st in
  match pullRequest captured with
  | Some e => (emit e st1, true)
  | None => (refreshLibrary_skipped st1, false)
  end.

(** The effect of lines 73-77, run after the first render and after every
    render in which the memoised [refreshLibrary] changed. *)
Definition useEffect_refresh (st : App) : App * bool :=
  let '(st1, issued) := refreshLibrary (syncState st) false st in
  (emit (SetInterval (RefreshLibrary (syncState st) true) 60000) st1, issued).

(** The dependencies of the memoised [refreshLibrary] (line 71). *)
Definition routing (s : SyncState)
    : SyncProvider * option string * option string * option string :=
  (provider s, githubToken s, gistId s, roomId s).

(** The render that follows a state change.  [before] is the [syncState] of
    the previous render.  When a dependency changed, [refreshLibrary] is a
    new function, so the effect of lines 73-77 is cleaned up and run again
    with the callback of the new render. *)
Definition rerender (before : SyncState) (st : App) : App :=
  if bool_decide (routing (syncState st) = routing before) then st
  else fst (useEffect_refresh (emit ClearInterval st)).

(** Running a timer callback. *)
Definition runTask (t : Task) (st : App) : App * bool :=
  match t with
  | RefreshLibrary captured silent => refreshLibrary captured silent st
  end.

(** ** Push: [persistLibrary] *)

Definition pushRequest (captured : SyncState) (updatedBooks : list Book) : option Effect :=
  if bool_decide (provider captured = github)
     && truthy (githubToken captured) && truthy (gistId captured)
  then Some (PushToGitHub updatedBooks (str (githubToken captured)) (str (gistId captured)))
  else if bool_decide (provider captured = public) && truthy (roomId captured)
  then Some (PushToPublic updatedBooks (str (roomId captured)))
  else None.

(** Line 105, reached when no push threw. *)
Definition persistLibrary_resolved (now : Z) (st : App) : App :=
  setSyncState (withLastSynced (Some now)) st.

(** The [catch] block for a thrown value other than [null] and [undefined];
    [message] is its [err.message]. *)
Definition persistLibrary_rejected (message : option string) (st : App) : App :=
  if bool_decide (message = Some "UNAUTHORIZED") then
    let st1 := emit (Alert "Sync failed: GitHub token invalid. Reconnecting...") st in
    setShowSyncModal true st1
  else st.

(** The [catch] block for any thrown value.  For [null] and [undefined] the
    test of line 107 throws inside the block: nothing is written and the
    promise of [persistLibrary] rejects, which the boolean reports. *)
Definition persistLibrary_caught (err : Thrown) (st : App) : App * bool :=
  match err with
  | ThrownNullish => (st, true)
  | ThrownObject message => (persistLibrary_rejected message st, false)
  end.

(** The callback up to its [await]; as for [refreshLibrary], it runs to its
    end at once when no request is issued. *)
Definition persistLibrary (captured : SyncState) (updatedBooks : list Book)
    (now : Z) (st : App) : App * bool :=
  match pushRequest captured updatedBooks with
  | Some e => (emit e st, true)
  | None => (persistLibrary_resolved now st, false)
  end.

(** ** Reconfiguration: [handleSyncUpdate] *)

(** [{ ...syncState, ...newState }] *)
Definition spread (s : SyncState) (n : PartialSyncState) : SyncState :=
  mkSyncState (default (provider s) (p_provider n))
              (default (roomId s) (p_roomId n))
              (default (githubToken s) (p_githubToken n))
              (default (gistId s) (p_gistId n))
              (default (lastSynced s) (p_lastSynced n))
              (default (isSyncing s) (p_isSyncing n)).

Definition providerString (p : SyncProvider) : string :=
  match p with
  | public => "public"
  | github => "github"
  | none => "none"
  end.

(** [if (v) localStorage.setItem(key, v)] *)
Definition setItemIfTruthy (key : string) (v : option string) (st : App) : App :=
  if truthy v then setLocalStorage (insert key (str v)) st else st.

(** [if (v) localStorage.setItem(key, v); else localStorage.removeItem(key)] *)
Definition setOrRemoveItem (key : string) (v : option string) (st : App) : App :=
  if truthy v then setLocalStorage (insert key (str v)) st
  else setLocalStorage (delete key) st.

(** The handler has no [await]; [syncState] and [refreshLibrary] are those of
    the render that created it, that is of [st]. *)
Definition handleSyncUpdate (newState : PartialSyncState) (st : App) : App :=
  let updated := spread (syncState st) newState in
  let st1 := setSyncState (fun _ => updated) st in
  let st2 := setItemIfTruthy "sync_provider" (Some (providerString (provider updated))) st1 in
  let st3 := setItemIfTruthy "sync_room_id" (roomId updated) st2 in
  let st4 := setOrRemoveItem "sync_github_token" (githubToken updated) st3 in
  let st5 := setOrRemoveItem "sync_gist_id" (gistId updated) st4 in
  let st6 := setShowSyncModal false st5 in
  let st7 := setHasLoadedInitially false st6 in
  emit (SetTimeout (RefreshLibrary (syncState st) false) 100) st7.

(** ** Initial state (the [useState] initialisers) *)

(** The cast [as SyncProvider] is unchecked.  A stored string other than the
    three literals compares unequal to ['github'] and to ['public'] in every
    test of the component, exactly as ['none'] does. *)
Definition parseProvider (s : string) : SyncProvider :=
  if String.eqb s "public" then public
  else if String.eqb s "github" then github
  else none.

Definition defaultRoom : string := "dastan_internal_shared_v2_9912".

Definition initial (ls : gmap string string) : App :=
  mkApp []
        (mkSyncState
           (if truthy (ls !! "sync_provider")
            then parseProvider (str (ls !! "sync_provider")) else public)
           (Some (if truthy (ls !! "sync_room_id")
                  then str (ls !! "sync_room_id")
                  else defaultRoom))
           (ls !! "sync_github_token")
           (ls !! "sync_gist_id")
           None false)
        false None None URDU_VOICES_0 IDLE false false ls [].

(** ** Upload: [handleUpload]

    Only the state changes of the handler are modelled.  The book built at
    lines 130-140 from the extraction result and the clock is the argument
    [newBook]. *)

Record UploadK := mkUploadK {
  u_books : list Book;
  u_syncState : SyncState
}.

Definition handleUpload (st : App) : App * UploadK :=
  let st1 := setStatus EXTRACTING st in
  (emit ExtractAndSplitText st1, mkUploadK (books st) (syncState st)).

Definition handleUpload_resolved (k : UploadK) (newBook : Book) (now : Z)
    (st : App) : App * bool :=
  let updatedBooks := newBook :: u_books k in
  let st1 := setBooks updatedBooks st in
  let st2 := setShowUploader false st1 in
  let st3 := setStatus IDLE st2 in
  persistLibrary (u_syncState k) updatedBooks now st3.

Definition handleUpload_rejected (st : App) : App :=
  let st1 := emit ConsoleError st in
  let st2 := setStatus ERROR st1 in
  emit (Alert "Failed to process the document. Please try again.") st2.

(** ** Deletion: [handleDeleteBook]

    [confirmed] is the answer given to [window.confirm]; [books],
    [selectedBook] and [syncState] are those of the render that created the
    handler, that is of [st]. *)
Definition handleDeleteBook (id : string) (confirmed : bool) (now : Z) (st : App)
    : App * bool :=
  if negb confirmed then (st, false)
  else
    let updatedBooks := filter (fun b => bk_id b <> id) (books st) in
    let st1 := setBooks updatedBooks st in
    let st2 :=
      match selectedBook st with
      | Some s => if String.eqb (bk_id s) id then setSelectedBook None st1 else st1
      | None => st1
      end in
    persistLibrary (syncState st) updatedBooks now st2.

(** A failed push of [handleDeleteBook].  The handler awaits
    [persistLibrary] outside any [try]: when the [catch] of [persistLibrary]
    throws, the handler rejects and nothing more runs. *)
Definition handleDeleteBook_pushFailed (err : Thrown) (st : App) : App :=
  fst (persistLibrary_caught err st).

(** A failed push of [handleUpload].  [persistLibrary] is awaited inside the
    [try] of the handler: when its own [catch] throws, the handler's [catch]
    runs. *)
Definition handleUpload_pushFailed (err : Thrown) (st : App) : App :=
  let '(st1, threw) := persistLibrary_caught err st in
  if threw then handleUpload_rejected st1 else st1.

(** ** The component as a transition system

    [generating] and [extracting] hold the suspended [handleChapterPlay] and
    [handleUpload] calls.  Completions of pulls and pushes carry no captured
    data and are events of their own; they are not tied to an issued request,
    which only adds runs.  [PushRejected] is the failure of a push sent by
    [handleDeleteBook], [UploadPushRejected] of one sent by [handleUpload].
    [handle] runs the callback of an event; [step] adds the render that
    follows it. *)

Record World := mkWorld {
  app : App;
  generating : list PlayK;
  extracting : list UploadK
}.

Inductive Event :=
| ClickPlay (i : nat)
| AudioResolved (n : nat) (url : string)
| AudioRejected (n : nat)
| SubmitUpload
| ExtractResolved (n : nat) (newBook : Book) (now : Z)
| ExtractRejected (n : nat)
| SelectBook (i : nat)
| Timer (t : Task)
| PullResolved (remoteBooks : option (list Book)) (now : Z)
| PullRejected (err : Thrown)
| PushResolved (now : Z)
| PushRejected (err : Thrown)
| UploadPushRejected (err : Thrown)
| DeleteBook (id : string) (confirmed : bool) (now : Z)
| SyncUpdate (newState : PartialSyncState).


(** [disabled={status === ProcessingStatus.GENERATING_AUDIO}] *)
Definition playDisabled (st : App) : bool :=
  bool_decide (status st = GENERATING_AUDIO).

(** The play buttons on screen: one per chapter of [selectedBook], none when
    no book is selected. *)
Definition playButtons (st : App) : list Chapter :=
  match selectedBook st with
  | Some b => chapters b
  | None => []
  end.

(** A click on the [i]-th play button; a disabled button fires no
    [onClick]. *)
Definition clickPlay (i : nat) (w : World) : World :=
  match playButtons (app w) !! i with
  | Some chapter =>
      if playDisabled (app w) then w
      else
        let '(st, k) := handleChapterPlay chapter (app w) in
        mkWorld st (generating w ++ option_list k) (extracting w)
  | None => w
  end.

Definition withApp (st : App) (w : World) : World :=
  mkWorld st (generating w) (extracting w).

Definition handle (e : Event) (w : World) : World :=
  match e with
  | ClickPlay i => clickPlay i w
  | AudioResolved n url =>
      match generating w !! n with
      | Some k => mkWorld (handleChapterPlay_resolved k url (app w))
                          (delete n (generating w)) (extracting w)
      | None => w
      end
  | AudioRejected n =>
      match generating w !! n with
      | Some k => mkWorld (handleChapterPlay_rejected k (app w))
                          (delete n (generating w)) (extracting w)
      | None => w
      end
  | SubmitUpload =>
      let '(st, k) := handleUpload (app w) in
      mkWorld st (generating w) (extracting w ++ [k])
  | ExtractResolved n newBook now =>
      match extracting w !! n with
      | Some k => mkWorld (fst (handleUpload_resolved k newBook now (app w)))
                          (generating w) (delete n (extracting w))
      | None => w
      end
  | ExtractRejected n =>
      match extracting w !! n with
      | Some k => mkWorld (handleUpload_rejected (app w))
                          (generating w) (delete n (extracting w))
      | None => w
      end
  | SelectBook i =>
      match books (app w) !! i with
      | Some b => withApp (setSelectedBook (Some b) (app w)) w
      | None => w
      end
  | Timer t => withApp (fst (runTask t (app w))) w
  | PullResolved r now => withApp (refreshLibrary_resolved r now (app w)) w
  | PullRejected err => withApp (refreshLibrary_caught err (app w)) w
  | PushResolved now => withApp (persistLibrary_resolved now (app w)) w
  | PushRejected err => withApp (handleDeleteBook_pushFailed err (app w)) w
  | UploadPushRejected err => withApp (handleUpload_pushFailed err (app w)) w
  | DeleteBook id confirmed now =>
      withApp (fst (handleDeleteBook id confirmed now (app w))) w
  | SyncUpdate n => withApp (handleSyncUpdate n (app w)) w
  end.

Definition step (e : Event) (w : World) : World :=
  let w' := handle e w in
  mkWorld (rerender (syncState (app w)) (app w')) (generating w') (extracting w').

Definition run (es : list Event) (w : World) : World :=
  foldl (fun w e => step e w) w es.

(** The world after the first render and its effect. *)
Definition boot (ls : gmap string string) : World :=
  mkWorld (fst (useEffect_refresh (initial ls))) [] [].

(** Number of generation requests sent so far. *)
Definition generationRequests (st : App) : nat :=
  length (filter (fun e => isGenerateAudio e = true) (trace st)).


(** ** Sample data for the concrete runs *)

Definition chapterOne : Chapter := mkChapter "c1" "One" "text one" None None.
Definition chapterTwo : Chapter := mkChapter "c2" "Two" "text two" None None.
Definition chapterBlank : Chapter := mkChapter "c3" "Three" "text three" (Some "") None.
Definition chapterHeard : Chapter :=
  mkChapter "c4" "Four" "text four" (Some "blob:four") (Some 12).

Definition sampleBook : Book :=
  mkBook "b1" "First" "Urdu Scholar" None [chapterOne; chapterTwo] 1000.
Definition otherBook : Book :=
  mkBook "b2" "Second" "Urdu Scholar" None [chapterHeard] 2000.


(** ** The book built by [handleUpload] (lines 130-140)

    [result] is what [extractAndSplitText] resolved with.  [clock j] is the
    value of the [j]-th call of [Date.now()] made while the object literal is
    evaluated: call 0 for [id], calls 1 to n inside [result.chapters.map], call
    n+1 for [createdAt].  [pretty] prints an integer in decimal, as
    [toString()] and template interpolation do for the integers [Date.now()]
    and an array index can be. *)
Record RawChapter := mkRawChapter {
  r_title : string;
  r_text : string
}.

Record Extraction := mkExtraction {
  x_title : option string;
  x_chapters : list RawChapter
}.

(** [result.chapters.map((c, i) => ({ id: `${Date.now()}-${i}`, ... }))] *)
Definition newChapters (clock : nat -> Z) (cs : list RawChapter) : list Chapter :=
  imap (fun i c =>
          mkChapter (pretty (clock (S i)) +:+ "-" +:+ pretty i)
                    (r_title c) (r_text c) None None) cs.

(** [input.customTitle || result.title || "Untitled Dastan"] *)
Definition newTitle (customTitle : option string) (result : Extraction) : string :=
  if truthy customTitle then str customTitle
  else if truthy (x_title result) then str (x_title result)
  else "Untitled Dastan".

Definition newBook (customTitle : option string) (result : Extraction)
    (clock : nat -> Z) : Book :=
  mkBook (pretty (clock 0%nat))
         (newTitle customTitle result)
         "Urdu Scholar"
         None
         (newChapters clock (x_chapters result))
         (clock (S (length (x_chapters result)))).

(** The [try] body of [handleUpload] after the [await], with the book built
    from the extraction result. *)
Definition handleUpload_extracted (k : UploadK) (customTitle : option string)
    (result : Extraction) (clock : nat -> Z) (now : Z) (st : App) : App * bool :=
  handleUpload_resolved k (newBook customTitle result clock) now st.

(** The book list carried by a push request. *)
Definition pushedBooks (e : Effect) : option (list Book) :=
  match e with
  | PushToGitHub bs _ _ | PushToPublic bs _ => Some bs
  | _ => None
  end.

(** No character of the string is a dash. *)
Fixpoint noDash (s : string) : bool :=
  match s with
  | EmptyString => true
  | String c s' => negb (Ascii.eqb c "-"%char) && noDash s'
  end.

(** The values the status takes in the component. *)
Definition statusInUse (s : ProcessingStatus) : bool :=
  match s with
  | IDLE | EXTRACTING | GENERATING_AUDIO | ERROR => true
  | SPLITTING | COMPLETED => false
  end.

Definition isSyncUpdate (e : Event) : bool :=
  match e with SyncUpdate _ => true | _ => false end.

(** A run event that can clear the last-synchronised time: a reconfiguration
    whose update carries the key [lastSynced] with the value [null]. *)
Definition clearsTimestamp (e : Event) : bool :=
  match e with
  | SyncUpdate n => bool_decide (p_lastSynced n = Some None)
  | _ => false
  end.

(** * Properties *)

(** ** Helper lemmas *)

Lemma truthy_Some (s : option string) :
  truthy s = true -> exists u, s = Some u /\ u <> "".
Proof.
  destruct s as [u|]; simpl; [|discriminate].
  intros H. exists u. split; [reflexivity|].
  intros ->. discriminate.
Qed.

Lemma generationRequests_emit (e : Effect) (st : App) :
  generationRequests (emit e st)
  = (generationRequests st + (if isGenerateAudio e then 1 else 0))%nat.
Proof.
  unfold generationRequests, emit. simpl.
  rewrite filter_app, length_app. f_equal.
  destruct (isGenerateAudio e) eqn:E.
  - rewrite filter_cons_True by exact E. reflexivity.
  - rewrite filter_cons_False by (rewrite E; discriminate). reflexivity.
Qed.


Lemma rerender_frame (before : SyncState) (st : App) :
  let st' := rerender before st in
  books st' = books st
  /\ status st' = status st
  /\ selectedBook st' = selectedBook st
  /\ activeChapter st' = activeChapter st
  /\ localStorage st' = localStorage st
  /\ hasLoadedInitially st' = hasLoadedInitially st
  /\ showSyncModal st' = showSyncModal st
  /\ showUploader st' = showUploader st
  /\ routing (syncState st') = routing (syncState st)
  /\ lastSynced (syncState st') = lastSynced (syncState st)
  /\ generationRequests st' = generationRequests st.
Proof.
  cbv zeta. unfold rerender. case_bool_decide; [done|].
  unfold useEffect_refresh, refreshLibrary.
  destruct (pullRequest (syncState (emit ClearInterval st))) as [e|] eqn:E; simpl.
  - split_and!; try reflexivity.
    rewrite !generationRequests_emit. fold (emit ClearInterval st).
    assert (isGenerateAudio e = false) as ->.
    { unfold pullRequest in E.
      repeat match type of E with context [if ?c then _ else _] => destruct c end;
        by inversion E. }
    change (generationRequests
              (emit ClearInterval (setSyncState (withIsSyncing true) st)) + 0 + 0
            = generationRequests st)%nat.
    rewrite generationRequests_emit. simpl. unfold generationRequests. simpl. lia.
  - split_and!; try reflexivity.
    rewrite generationRequests_emit. simpl.
    change (generationRequests
              (emit ClearInterval
                 (setSyncState (withIsSyncing false)
                    (setSyncState (withIsSyncing true) st))) + 0
            = generationRequests st)%nat.
    rewrite generationRequests_emit. simpl. unfold generationRequests. simpl. lia.
Qed.

Lemma step_app (e : Event) (w : World) :
  app (step e w) = rerender (syncState (app w)) (app (handle e w))
  /\ generating (step e w) = generating (handle e w)
  /\ extracting (step e w) = extracting (handle e w).
Proof. done. Qed.

(** ** Generation cache *)

Section Idempotence.

Variable chapter : Chapter.
Hypothesis filled : truthy (audioUrl chapter) = true.

Lemma handleChapterPlay_cached (st : App) :
  handleChapterPlay chapter st = (setActiveChapter (Some chapter) st, None).
Proof. unfold handleChapterPlay. rewrite filled. reflexivity. Qed.

(** C1 (as amended): for a chapter whose audio reference is set to a
    non-empty string, [handleChapterPlay] finishes without suspending: it
    sends no request of any kind (the trace is unchanged), leaves the book
    list, the selection, the status and the synchronisation state as they
    were, and makes the chapter, with the reference it already had, the
    active one.  A second call does exactly the same and ends in the same
    state with the same reference. *)
Theorem C1_cached_audio_is_reused (st : App) :
  let st1 := fst (handleChapterPlay chapter st) in
  let st2 := fst (handleChapterPlay chapter st1) in
  snd (handleChapterPlay chapter st) = None
  /\ snd (handleChapterPlay chapter st1) = None
  /\ trace st1 = trace st
  /\ generationRequests st2 = generationRequests st
  /\ books st1 = books st
  /\ selectedBook st1 = selectedBook st
  /\ status st1 = status st
  /\ syncState st1 = syncState st
  /\ activeChapter st1 = Some chapter
  /\ st2 = st1
  /\ (activeChapter st2 ≫= audioUrl) = (activeChapter st1 ≫= audioUrl)
  /\ (activeChapter st1 ≫= audioUrl) = audioUrl chapter.
Proof.
  intros st1 st2. subst st2 st1.
  rewrite !handleChapterPlay_cached. simpl.
  repeat split; reflexivity.
Qed.

End Idempotence.

(** C9: when the generation request fails, the status becomes [ERROR]; the
    book list, the selected book and the active chapter are exactly what they
    were, so no chapter receives a reference; the failure is reported to the
    user by an alert (after a console entry); and no further generation
    request is sent.  In the transition system the failed call is dropped and
    none takes its place. *)
Theorem C9_generation_failure (k : PlayK) (st : App) (w : World) (n : nat) :
  let st' := handleChapterPlay_rejected k st in
  status st' = ERROR
  /\ books st' = books st
  /\ selectedBook st' = selectedBook st
  /\ activeChapter st' = activeChapter st
  /\ syncState st' = syncState st
  /\ trace st' = (trace st ++ [ConsoleError; Alert "Failed to generate audio."])%list
  /\ generationRequests st' = generationRequests st
  /\ books (app (step (AudioRejected n) w)) = books (app w)
  /\ generating (step (AudioRejected n) w)
     = match generating w !! n with
       | Some _ => delete n (generating w)
       | None => generating w
       end.
Proof.
  cbv zeta. unfold handleChapterPlay_rejected.
  split_and!; try reflexivity.
  - simpl. rewrite <- app_assoc. reflexivity.
  - unfold generationRequests. simpl. rewrite !filter_app, !length_app. simpl. lia.
  - rewrite (proj1 (step_app _ _)), (proj1 (rerender_frame _ _)). simpl.
    destruct (generating w !! n); reflexivity.
  - rewrite (proj1 (proj2 (step_app _ _))). simpl.
    destruct (generating w !! n); reflexivity.
Qed.

(** ** Pull cycle *)

Lemma pullRequest_none (s : SyncState) : pullRequest (withProvider none s) = None.
Proof. reflexivity. Qed.

(** C3: a pull that completes with an absent result leaves the book list as
    it is, records no synchronisation time, clears the in-flight flag, and
    is not an error: provider and routing, the processing status, the sync
    dialog and the trace (no console entry, no alert) are untouched.  With
    the provider ['none'] the callback reaches that same branch at once,
    without sending any request. *)
Theorem C3_absent_pull_keeps_library
    (st : App) (now : Z) (s : SyncState) (silent : bool) :
  let st' := refreshLibrary_resolved None now st in
  let local := refreshLibrary (withProvider none s) silent st in
  (books st' = books st
   /\ lastSynced (syncState st') = lastSynced (syncState st)
   /\ isSyncing (syncState st') = false
   /\ provider (syncState st') = provider (syncState st)
   /\ roomId (syncState st') = roomId (syncState st)
   /\ githubToken (syncState st') = githubToken (syncState st)
   /\ gistId (syncState st') = gistId (syncState st)
   /\ hasLoadedInitially st' = hasLoadedInitially st
   /\ status st' = status st
   /\ showSyncModal st' = showSyncModal st
   /\ trace st' = trace st)
  /\ (snd local = false
      /\ trace (fst local) = trace st
      /\ books (fst local) = books st
      /\ lastSynced (syncState (fst local)) = lastSynced (syncState st)
      /\ isSyncing (syncState (fst local)) = false
      /\ provider (syncState (fst local)) = provider (syncState st)
      /\ status (fst local) = status st
      /\ showSyncModal (fst local) = showSyncModal st).
Proof.
  cbv zeta. unfold refreshLibrary. rewrite pullRequest_none.
  destruct silent; simpl; repeat split; reflexivity.
Qed.

(** ** Push *)

Section NoRemoteWrite.

Variable captured : SyncState.
Hypothesis nothingToPushTo :
  provider captured = none
  \/ (provider captured = github
      /\ (truthy (githubToken captured) = false \/ truthy (gistId captured) = false))
  \/ (provider captured = public /\ truthy (roomId captured) = false).

Lemma pushRequest_absent (updatedBooks : list Book) :
  pushRequest captured updatedBooks = None.
Proof.
  unfold pushRequest.
  destruct nothingToPushTo as [Hp | [[Hp Hc] | [Hp Hr]]]; rewrite Hp; simpl.
  - reflexivity.
  - destruct Hc as [-> | ->]; simpl; [reflexivity|].
    rewrite andb_false_r. reflexivity.
  - rewrite Hr. reflexivity.
Qed.

(** C10: when the provider is ['none'], or ['github'] without a token or
    without a gist id, or ['public'] without a room id, [persistLibrary]
    sends no push (the trace is unchanged and it does not suspend) and still
    sets the last-synchronised time to the current time.  The same
    assignment is what follows a push that did not throw. *)
Theorem C10_timestamp_without_remote_write
    (updatedBooks : list Book) (now : Z) (st : App) :
  let r := persistLibrary captured updatedBooks now st in
  snd r = false
  /\ trace (fst r) = trace st
  /\ filter (fun e => isPush e = true) (trace (fst r))
     = filter (fun e => isPush e = true) (trace st)
  /\ lastSynced (syncState (fst r)) = Some now
  /\ books (fst r) = books st
  /\ lastSynced (syncState (persistLibrary_resolved now st)) = Some now.
Proof.
  cbv zeta. unfold persistLibrary. rewrite pushRequest_absent. simpl.
  repeat split; reflexivity.
Qed.

End NoRemoteWrite.

(** ** Authorisation failures *)

(** C4 (the code at the failing inputs): after a pull that threw
    [UNAUTHORIZED] the provider is ['none'] and the in-flight flag is cleared,
    but the only report is a console warning: no alert is raised and the sync
    dialog stays closed.  After a push that threw [UNAUTHORIZED] the user is
    alerted and the sync dialog is opened, but the provider is still
    ['github']. *)
Theorem C4_unauthorized_paths_differ :
  let st := initial {[ "sync_provider" := "github";
                       "sync_github_token" := "tok";
                       "sync_gist_id" := "g1" ]} in
  let pulled := refreshLibrary_rejected (Some "UNAUTHORIZED") st in
  let pushed := persistLibrary_rejected (Some "UNAUTHORIZED") st in
  provider (syncState st) = github
  /\ (provider (syncState pulled) = none
      /\ isSyncing (syncState pulled) = false
      /\ trace pulled = [ConsoleWarn "GitHub session expired or token revoked."]
      /\ showSyncModal pulled = false)
  /\ (provider (syncState pushed) = github
      /\ trace pushed = [Alert "Sync failed: GitHub token invalid. Reconnecting..."]
      /\ showSyncModal pushed = true).
Proof. vm_compute. repeat split; reflexivity. Qed.

(** ** Completion of a pull after a reconfiguration *)

(** The continuation of [refreshLibrary] holds no routing data, and the code
    after the [await] never reads [syncState]; a present result is applied to
    whatever the state is by then. *)
Lemma refreshLibrary_applied_books (remoteBooks : list Book) (now : Z) (st : App) :
  books (refreshLibrary_applied remoteBooks now st) = remoteBooks.
Proof. reflexivity. Qed.

(** C5 (as amended): there is no stale-response detection.  A pull that
    completes with a present result replaces the book list with that result,
    records the time and clears the in-flight flag whatever the state has
    become since the request was sent; in particular after a reconfiguration
    made between the request and its completion, whose provider and routing
    the completion leaves in place. *)
Theorem C5_late_pull_result_is_applied
    (st : App) (captured : SyncState) (silent : bool)
    (newState : PartialSyncState) (remoteBooks : list Book) (now : Z) :
  let sent := fst (refreshLibrary captured silent st) in
  let reconfigured := handleSyncUpdate newState sent in
  let settled := refreshLibrary_resolved (Some remoteBooks) now reconfigured in
  books settled = remoteBooks
  /\ lastSynced (syncState settled) = Some now
  /\ isSyncing (syncState settled) = false
  /\ hasLoadedInitially settled = true
  /\ provider (syncState settled) = provider (syncState reconfigured)
  /\ roomId (syncState settled) = roomId (syncState reconfigured)
  /\ githubToken (syncState settled) = githubToken (syncState reconfigured)
  /\ gistId (syncState settled) = gistId (syncState reconfigured)
  /\ forall st', books (refreshLibrary_applied remoteBooks now st') = remoteBooks.
Proof. cbv zeta. repeat split; reflexivity. Qed.

(** ** Overlapping pulls *)

(** C6 (as amended): [refreshLibrary] never reads the in-flight flag.  The
    request it sends is determined by the captured routing alone: the trace
    grows by exactly [pullRequest captured], for every state and in
    particular whether or not [isSyncing] is set.  With the provider
    ['public'] a request is always sent; with ['github'] one is sent exactly
    when token and gist id are both non-empty; with ['none'] none is. *)
Theorem C6_pull_ignores_in_flight_flag
    (captured : SyncState) (silent : bool) (st : App) :
  let r := refreshLibrary captured silent st in
  trace (fst r) = (trace st ++ option_list (pullRequest captured))%list
  /\ snd r = bool_decide (is_Some (pullRequest captured))
  /\ snd (refreshLibrary captured silent (setSyncState (withIsSyncing true) st))
     = snd (refreshLibrary captured silent (setSyncState (withIsSyncing false) st))
  /\ (provider captured = public -> is_Some (pullRequest captured))
  /\ (provider captured = github ->
      (is_Some (pullRequest captured)
       <-> truthy (githubToken captured) = true /\ truthy (gistId captured) = true))
  /\ (provider captured = none -> pullRequest captured = None).
Proof.
  cbv zeta. unfold refreshLibrary.
  repeat split.
  - destruct (pullRequest captured), silent; simpl;
      rewrite ?app_nil_r; reflexivity.
  - destruct (pullRequest captured); reflexivity.
  - destruct (pullRequest captured); reflexivity.
  - intros H. unfold pullRequest. rewrite H. simpl. eauto.
  - unfold pullRequest in *. rewrite H in *. simpl in *.
    destruct (truthy (githubToken captured)); [|by destruct H0].
    destruct (truthy (gistId captured)); [done|by destruct H0].
  - unfold pullRequest in *. rewrite H in *. simpl in *.
    destruct (truthy (githubToken captured)); [|by destruct H0].
    destruct (truthy (gistId captured)); [done|by destruct H0].
  - intros [Ht Hg]. unfold pullRequest. rewrite H, Ht, Hg. simpl. eauto.
  - intros H. unfold pullRequest. rewrite H. reflexivity.
Qed.

(** ** Reconfiguration *)

Lemma truthy_providerString (p : SyncProvider) :
  truthy (Some (providerString p)) = true.
Proof. destruct p; reflexivity. Qed.

Lemma truthy_str (v : option string) : truthy v = true -> Some (str v) = v.
Proof. destruct v; simpl; [reflexivity | discriminate]. Qed.

(** What the handler itself writes. *)
Lemma handleSyncUpdate_spec (newState : PartialSyncState) (st : App) :
  let updated := spread (syncState st) newState in
  let st' := handleSyncUpdate newState st in
  syncState st' = updated
  /\ localStorage st' !! "sync_provider" = Some (providerString (provider updated))
  /\ localStorage st' !! "sync_room_id"
     = (if truthy (roomId updated) then roomId updated
        else localStorage st !! "sync_room_id")
  /\ localStorage st' !! "sync_github_token"
     = (if truthy (githubToken updated) then githubToken updated else None)
  /\ localStorage st' !! "sync_gist_id"
     = (if truthy (gistId updated) then gistId updated else None)
  /\ (forall key : string,
        key <> "sync_provider" -> key <> "sync_room_id" ->
        key <> "sync_github_token" -> key <> "sync_gist_id" ->
        localStorage st' !! key = localStorage st !! key)
  /\ showSyncModal st' = false
  /\ hasLoadedInitially st' = false
  /\ lastSynced (syncState st')
     = default (lastSynced (syncState st)) (p_lastSynced newState)
  /\ books st' = books st
  /\ trace st' = (trace st ++ [SetTimeout (RefreshLibrary (syncState st) false) 100])%list.
Proof.
  cbv zeta. unfold handleSyncUpdate, setItemIfTruthy, setOrRemoveItem.
  rewrite truthy_providerString.
  set (u := spread (syncState st) newState).
  destruct (truthy (roomId u)) eqn:Er, (truthy (githubToken u)) eqn:Et,
           (truthy (gistId u)) eqn:Eg; simpl;
    rewrite ?(truthy_str _ Er), ?(truthy_str _ Et), ?(truthy_str _ Eg);
    repeat split; try reflexivity;
    try (intros key ? ? ? ?); simplify_map_eq; try reflexivity;
    rewrite ?(truthy_str _ Er), ?(truthy_str _ Et), ?(truthy_str _ Eg);
    try reflexivity.
Qed.

Lemma pullRequest_isPull (captured : SyncState) (e : Effect) :
  pullRequest captured = Some e -> isPull e = true.
Proof.
  unfold pullRequest.
  repeat match goal with |- context [if ?c then _ else _] => destruct c end;
    intros [= <-]; reflexivity.
Qed.


(** C8 (as amended): a reconfiguration stores the merged state; writes the
    provider to local storage, writes the room id when it is non-empty (an
    empty one leaves the stored room id as it is), writes the token and the
    gist id or removes them when empty, and touches no other key; closes
    the sync dialog; marks the library as not yet loaded by setting
    [hasLoadedInitially] to false, while the last-synchronised time is kept
    (it changes only if the update itself carries a value); leaves the book
    list alone; and, when provider, room or credential changed, forces an
    immediate pull under the new routing: in the render that follows, the
    effect runs [refreshLibrary] of the new state, not silent, and registers
    the interval anew. *)
Theorem C8_reconfiguration (newState : PartialSyncState) (w : World) :
  let st := app w in
  let updated := spread (syncState st) newState in
  let st' := app (step (SyncUpdate newState) w) in
  (routing (syncState st') = routing updated
   /\ lastSynced (syncState st') = lastSynced updated)
  /\ (localStorage st' !! "sync_provider" = Some (providerString (provider updated))
      /\ localStorage st' !! "sync_room_id"
         = (if truthy (roomId updated) then roomId updated
            else localStorage st !! "sync_room_id")
      /\ localStorage st' !! "sync_github_token"
         = (if truthy (githubToken updated) then githubToken updated else None)
      /\ localStorage st' !! "sync_gist_id"
         = (if truthy (gistId updated) then gistId updated else None)
      /\ (forall key : string,
            key <> "sync_provider" -> key <> "sync_room_id" ->
            key <> "sync_github_token" -> key <> "sync_gist_id" ->
            localStorage st' !! key = localStorage st !! key))
  /\ showSyncModal st' = false
  /\ hasLoadedInitially st' = false
  /\ lastSynced (syncState st')
     = default (lastSynced (syncState st)) (p_lastSynced newState)
  /\ books st' = books st
  /\ (routing updated <> routing (syncState st) ->
      filter (fun e => isPull e = true) (trace st')
      = (filter (fun e => isPull e = true) (trace st)
         ++ option_list (pullRequest updated))%list
      /\ isSyncing (syncState st') = bool_decide (is_Some (pullRequest updated))
      /\ last (trace st') = Some (SetInterval (RefreshLibrary updated true) 60000)).
Proof.
  cbv zeta. rewrite (proj1 (step_app _ _)). cbn [handle withApp app].
  destruct (handleSyncUpdate_spec newState (app w))
    as (Hs & Hp & Hr & Ht & Hg & Hk & Hm & Hl & Hts & Hb & Htr).
  remember (handleSyncUpdate newState (app w)) as h eqn:Eh. clear Eh.
  remember (spread (syncState (app w)) newState) as u eqn:Eu. clear Eu.
  destruct (rerender_frame (syncState (app w)) h)
    as (Fb & _ & _ & _ & Fl & Fh & Fm & _ & Fr & Ft & _).
  rewrite Fb, Fl, Fh, Fm, Fr, Ft, Hs.
  split_and!; try done; [by rewrite <- Hs|].
  intros Hne. unfold rerender. rewrite Hs.
  rewrite bool_decide_eq_false_2 by exact Hne.
  unfold useEffect_refresh, refreshLibrary.
  change (syncState (emit ClearInterval h)) with (syncState h). rewrite Hs.
  destruct (pullRequest u) as [e|] eqn:E; simpl.
  + rewrite Htr, <- !app_assoc, !filter_app. simpl.
    rewrite (filter_cons_True _ e) by (by apply (pullRequest_isPull u)).
    split_and!; [by rewrite app_nil_r | done |].
    by rewrite last_app.
  + rewrite Htr, <- !app_assoc, !filter_app. simpl.
    split_and!; [by rewrite !app_nil_r | done |].
    by rewrite last_app.
Qed.

(** ** Attaching the generated audio *)

Lemma mapBooks_fst (k : PlayK) (url : string) (bs : list Book) (st : App) :
  fst (mapBooks k url bs st)
  = attachAudio (k_selectedBook k) (ch_id (k_chapter k)) url bs.
Proof.
  revert st. induction bs as [|b bs IH]; intros st; simpl; [reflexivity|].
  destruct (isSelected (k_selectedBook k) b).
  - specialize (IH (setSelectedBook (Some (updatedBook (ch_id (k_chapter k)) url b)) st)).
    destruct (mapBooks k url bs _) as [r st']. simpl in *. by rewrite IH.
  - specialize (IH st).
    destruct (mapBooks k url bs st) as [r st']. simpl in *. by rewrite IH.
Qed.

(** The traversal writes [selectedBook] only. *)
Lemma mapBooks_snd (k : PlayK) (url : string) (bs : list Book) (st : App) :
  let st' := snd (mapBooks k url bs st) in
  trace st' = trace st /\ status st' = status st
  /\ syncState st' = syncState st /\ activeChapter st' = activeChapter st
  /\ localStorage st' = localStorage st.
Proof.
  revert st. induction bs as [|b bs IH]; intros st; simpl; [done|].
  destruct (isSelected (k_selectedBook k) b).
  - specialize (IH (setSelectedBook (Some (updatedBook (ch_id (k_chapter k)) url b)) st)).
    destruct (mapBooks k url bs _) as [r st']. simpl in *. exact IH.
  - specialize (IH st).
    destruct (mapBooks k url bs st) as [r st']. simpl in *. exact IH.
Qed.

Lemma handleChapterPlay_resolved_books (k : PlayK) (url : string) (st : App) :
  books (handleChapterPlay_resolved k url st)
  = attachAudio (k_selectedBook k) (ch_id (k_chapter k)) url (k_books k).
Proof.
  unfold handleChapterPlay_resolved.
  pose proof (mapBooks_fst k url (k_books k) st) as E.
  destruct (mapBooks k url (k_books k) st) as [r st1]. simpl in E. subst r.
  destruct (currentChapter k _); reflexivity.
Qed.

Lemma handleChapterPlay_resolved_quiet (k : PlayK) (url : string) (st : App) :
  status (handleChapterPlay_resolved k url st) = IDLE
  /\ trace (handleChapterPlay_resolved k url st) = trace st.
Proof.
  unfold handleChapterPlay_resolved.
  pose proof (mapBooks_snd k url (k_books k) st) as E.
  destruct (mapBooks k url (k_books k) st) as [r st1]. simpl in E.
  destruct E as (Et & _).
  destruct (currentChapter k r); simpl; by rewrite Et.
Qed.

Lemma attachChapter_other (cid url : string) (c : Chapter) :
  ch_id c <> cid -> attachChapter cid url c = c.
Proof.
  intros H. unfold attachChapter.
  destruct (String.eqb_spec (ch_id c) cid); [contradiction | reflexivity].
Qed.

Lemma attachChapter_hit (cid url : string) (c : Chapter) :
  ch_id c = cid ->
  attachChapter cid url c
  = mkChapter (ch_id c) (ch_title c) (ch_text c) (Some url) (duration c).
Proof. intros H. unfold attachChapter. rewrite H, String.eqb_refl. by rewrite <- H. Qed.

Lemma attachChapters_missing (cid url : string) (cs : list Chapter) :
  Forall (fun c => ch_id c <> cid) cs -> map (attachChapter cid url) cs = cs.
Proof.
  induction 1 as [|c cs Hc _ IH]; simpl; [reflexivity|].
  by rewrite attachChapter_other, IH.
Qed.

Lemma updatedBook_missing (cid url : string) (b : Book) :
  Forall (fun c => ch_id c <> cid) (chapters b) -> updatedBook cid url b = b.
Proof.
  intros H. unfold updatedBook. rewrite attachChapters_missing by exact H.
  by destruct b.
Qed.

Lemma isSelected_Some (s b : Book) :
  isSelected (Some s) b = true <-> bk_id b = bk_id s.
Proof. simpl. apply String.eqb_eq. Qed.

Lemma attachAudio_missing (s : Book) (cid url : string) (bs : list Book) :
  Forall (fun b => bk_id b = bk_id s ->
                   Forall (fun c => ch_id c <> cid) (chapters b)) bs ->
  attachAudio (Some s) cid url bs = bs.
Proof.
  induction 1 as [|b bs Hb _ IH]; [reflexivity|].
  unfold attachAudio in *. cbn [map]. rewrite IH. f_equal.
  destruct (isSelected (Some s) b) eqn:E; [|reflexivity].
  apply updatedBook_missing, Hb, isSelected_Some, E.
Qed.

Lemma attachAudio_lookup (sel : option Book) (cid url : string)
    (bs : list Book) (i : nat) :
  attachAudio sel cid url bs !! i
  = (fun b => if isSelected sel b then updatedBook cid url b else b) <$> bs !! i.
Proof. unfold attachAudio. apply (list_lookup_fmap _ bs i). Qed.

(** X24: the book list written when the generation resolves is computed from
    the list the callback captured when play was clicked, by comparing ids
    only.
    - Every position keeps its book, updated exactly when its id equals the
      id of the selected book; applying the mutation commutes with any
      reordering of the books, and of the chapters inside a book.
    - When no book is selected, or no book has the selected id, or no chapter
      of such a book has the chapter's id, the resulting list is the list
      itself; the callback still ends in [IDLE] and reports nothing.
    - A book with another id is returned as it is.  A book whose id is the
      id of the selected book is updated: it keeps all fields but
      [chapters]; there, a chapter with another id is returned as it is and
      every chapter with the chapter's id receives the reference and keeps
      its other fields. *)
Theorem attach_audio_by_identity (k : PlayK) (url : string) (st : App) :
  let bs := k_books k in
  let sel := k_selectedBook k in
  let cid := ch_id (k_chapter k) in
  let st' := handleChapterPlay_resolved k url st in
  (books st' = attachAudio sel cid url bs
   /\ length (books st') = length bs
   /\ (forall i : nat,
         books st' !! i
         = (fun b => if isSelected sel b then updatedBook cid url b else b) <$> bs !! i)
   /\ (forall bs1 bs2 : list Book,
         bs1 ≡ₚ bs2 -> attachAudio sel cid url bs1 ≡ₚ attachAudio sel cid url bs2)
   /\ (forall cs1 cs2 : list Chapter,
         cs1 ≡ₚ cs2 -> map (attachChapter cid url) cs1 ≡ₚ map (attachChapter cid url) cs2))
  /\ ((sel = None -> books st' = bs)
      /\ (forall s : Book, sel = Some s ->
            Forall (fun b => bk_id b <> bk_id s) bs -> books st' = bs)
      /\ (forall s : Book, sel = Some s ->
            Forall (fun b => bk_id b = bk_id s ->
                             Forall (fun c => ch_id c <> cid) (chapters b)) bs ->
            books st' = bs)
      /\ status st' = IDLE
      /\ trace st' = trace st)
  /\ (forall (i : nat) (b : Book), bs !! i = Some b ->
        ((sel = None \/ exists s : Book, sel = Some s /\ bk_id b <> bk_id s) ->
         books st' !! i = Some b)
        /\ (forall s : Book, sel = Some s -> bk_id b = bk_id s ->
            exists b', books st' !! i = Some b'
              /\ bk_id b' = bk_id b /\ bk_title b' = bk_title b
              /\ author b' = author b /\ coverImage b' = coverImage b
              /\ createdAt b' = createdAt b
              /\ length (chapters b') = length (chapters b)
              /\ forall (j : nat) (c : Chapter), chapters b !! j = Some c ->
                   (ch_id c <> cid -> chapters b' !! j = Some c)
                   /\ (ch_id c = cid ->
                       chapters b' !! j
                       = Some (mkChapter (ch_id c) (ch_title c) (ch_text c)
                                         (Some url) (duration c))))).
Proof.
  cbv zeta. rewrite handleChapterPlay_resolved_books.
  destruct (handleChapterPlay_resolved_quiet k url st) as [Hs Ht].
  split; [|split].
  - repeat split.
    + unfold attachAudio. apply length_map.
    + intros i. apply attachAudio_lookup.
    + intros bs1 bs2 H. unfold attachAudio. by apply Permutation_map.
    + intros cs1 cs2 H. by apply Permutation_map.
  - repeat split; [| | |exact Hs|exact Ht].
    + intros ->. unfold attachAudio. simpl. apply map_id.
    + intros s -> H. apply attachAudio_missing.
      eapply Forall_impl; [exact H|]. intros b Hne He. contradiction.
    + intros s -> H. by apply attachAudio_missing.
  - intros i b Hi. rewrite attachAudio_lookup, Hi. simpl. split.
    + intros Hother.
      assert (isSelected (k_selectedBook k) b = false) as ->; [|reflexivity].
      destruct Hother as [-> | (s & -> & Hne)]; [reflexivity|].
      simpl. by apply String.eqb_neq.
    + intros s Hsel Hid.
      rewrite Hsel, (proj2 (isSelected_Some s b) Hid).
      eexists. split; [reflexivity|]. simpl.
      repeat split; [apply length_map|..].
      * intros Hne. rewrite (list_lookup_fmap (attachChapter _ url) (chapters b) j), H.
        simpl. by rewrite attachChapter_other.
      * intros He. rewrite (list_lookup_fmap (attachChapter _ url) (chapters b) j), H.
        simpl. by rewrite attachChapter_hit.
Qed.

(** ** At most one generation in flight *)


Lemma refreshLibrary_status (captured : SyncState) (silent : bool) (st : App) :
  status (fst (refreshLibrary captured silent st)) = status st.
Proof.
  unfold refreshLibrary.
  destruct (pullRequest captured), silent; reflexivity.
Qed.

Lemma refreshLibrary_rejected_status (m : option string) (st : App) :
  status (refreshLibrary_rejected m st) = status st.
Proof. unfold refreshLibrary_rejected. case_bool_decide; reflexivity. Qed.

Lemma persistLibrary_rejected_status (m : option string) (st : App) :
  status (persistLibrary_rejected m st) = status st.
Proof. unfold persistLibrary_rejected. case_bool_decide; reflexivity. Qed.

Lemma handleSyncUpdate_status (n : PartialSyncState) (st : App) :
  status (handleSyncUpdate n st) = status st.
Proof.
  unfold handleSyncUpdate, setItemIfTruthy, setOrRemoveItem.
  repeat match goal with |- context [if ?c then _ else _] => destruct c end;
    reflexivity.
Qed.




Lemma refreshLibrary_caught_status (err : Thrown) (st : App) :
  status (refreshLibrary_caught err st) = status st.
Proof. destruct err; [reflexivity | apply refreshLibrary_rejected_status]. Qed.

Lemma persistLibrary_caught_status (err : Thrown) (st : App) :
  status (fst (persistLibrary_caught err st)) = status st.
Proof. destruct err; [reflexivity | apply persistLibrary_rejected_status]. Qed.

Lemma handleDeleteBook_status (id : string) (confirmed : bool) (now : Z) (st : App) :
  status (fst (handleDeleteBook id confirmed now st)) = status st.
Proof.
  unfold handleDeleteBook, persistLibrary.
  destruct confirmed; [|reflexivity]. simpl.
  destruct (pushRequest _ _), (selectedBook st) as [s|];
    try destruct (String.eqb (bk_id s) id); reflexivity.
Qed.






(** * Concrete runs *)

(** C1, as stated, fails for a reference that is set to the empty string:
    the test [if (chapter.audioUrl)] is a truthiness test, so the callback
    goes on to request a generation. *)
Lemma C1_empty_reference_is_regenerated :
  let r := handleChapterPlay chapterBlank (initial ∅) in
  audioUrl chapterBlank = Some ""
  /\ snd r = Some (mkPlayK chapterBlank [] None)
  /\ trace (fst r) = [GenerateAudio "text three" "Kore"]
  /\ generationRequests (fst r) = 1%nat
  /\ status (fst r) = GENERATING_AUDIO
  /\ activeChapter (fst r) = None.
Proof. vm_compute. repeat split; reflexivity. Qed.


(** C5, as stated, fails: a pull sent under the provider ['public'] and
    completed after the provider was changed to ['none'] replaces the book
    list. *)
Lemma C5_stale_pull_overwrites :
  let st0 := initial ∅ in
  let sent := refreshLibrary (syncState st0) false st0 in
  let reconfigured :=
    handleSyncUpdate (mkPartial (Some none) None None None None None) (fst sent) in
  let settled := refreshLibrary_resolved (Some [sampleBook]) 7 reconfigured in
  provider (syncState st0) = public
  /\ trace (fst sent) = [PullFromPublic (Some defaultRoom)]
  /\ provider (syncState reconfigured) = none
  /\ books reconfigured = []
  /\ books settled = [sampleBook]
  /\ lastSynced (syncState settled) = Some 7
  /\ provider (syncState settled) = none.
Proof. vm_compute. repeat split; reflexivity. Qed.

(** C6, as stated, fails: with a pull outstanding and [isSyncing] set, the
    interval's [refreshLibrary(true)] sends another request. *)
Lemma C6_second_pull_while_syncing :
  let st0 := initial ∅ in
  let first := useEffect_refresh st0 in
  let second := runTask (RefreshLibrary (syncState st0) true) (fst first) in
  snd first = true
  /\ isSyncing (syncState (fst first)) = true
  /\ snd second = true
  /\ filter (fun e => isPull e = true) (trace (fst second))
     = [PullFromPublic (Some defaultRoom); PullFromPublic (Some defaultRoom)].
Proof. vm_compute. repeat split; reflexivity. Qed.

(** C7 (the code at the failing input): a pull that lands while a generation
    is outstanding removes book [b1] from the library.  When the generation
    resolves, the library does not have the book, yet the book list is not
    left as it is: the callback writes the list it captured at the click,
    with the audio attached, and the removed book is back. *)
Lemma C7_raced_deletion_is_undone :
  let es := [PullResolved (Some [sampleBook; otherBook]) 1; SelectBook 0;
             ClickPlay 0; PullResolved (Some [otherBook]) 2] in
  let before := run es (boot ∅) in
  let after := step (AudioResolved 0 "blob:one") before in
  generating before = [mkPlayK chapterOne [sampleBook; otherBook] (Some sampleBook)]
  /\ books (app before) = [otherBook]
  /\ books (app after) = [updatedBook "c1" "blob:one" sampleBook; otherBook]
  /\ books (app after) <> books (app before)
  /\ status (app after) = IDLE
  /\ filter (fun e => isUserNotice e = true) (trace (app after)) = [].
Proof. vm_compute. repeat split; try reflexivity. discriminate. Qed.

(** C8, as stated, fails: the last-synchronised time recorded by an earlier
    pull is still there after a reconfiguration; and a reconfiguration that
    clears the room id leaves the room id stored before in local storage, so
    what is stored is not the new state. *)
Lemma C8_timestamp_survives_reconfiguration :
  let st := refreshLibrary_resolved (Some []) 5 (initial ∅) in
  let st' :=
    handleSyncUpdate
      (mkPartial (Some github) None (Some (Some "tok")) (Some (Some "g1")) None None)
      st in
  let unroomed :=
    handleSyncUpdate
      (mkPartial (Some github) (Some None) (Some (Some "tok")) (Some (Some "g1"))
                 None None)
      (initial {[ "sync_room_id" := "family" ]}) in
  (lastSynced (syncState st) = Some 5
   /\ provider (syncState st') = github
   /\ githubToken (syncState st') = Some "tok"
   /\ lastSynced (syncState st') = Some 5
   /\ hasLoadedInitially st' = false)
  /\ (roomId (syncState unroomed) = None
      /\ localStorage unroomed !! "sync_room_id" = Some "family").
Proof. vm_compute. repeat split; reflexivity. Qed.

(** * The theorems at concrete inputs *)

Lemma C1_cached_audio_is_reused_witness :
  truthy (audioUrl chapterHeard) = true
  /\ snd (handleChapterPlay chapterHeard (initial ∅)) = None
  /\ trace (fst (handleChapterPlay chapterHeard (initial ∅))) = trace (initial ∅)
  /\ activeChapter (fst (handleChapterPlay chapterHeard (initial ∅))) = Some chapterHeard.
Proof.
  split; [reflexivity|].
  destruct (C1_cached_audio_is_reused chapterHeard eq_refl (initial ∅))
    as (H1 & _ & H3 & _ & _ & _ & _ & _ & H9 & _).
  split; [exact H1|]. split; [exact H3 | exact H9].
Defined.


Lemma C6_pull_ignores_in_flight_flag_witness :
  provider (syncState (initial ∅)) = public
  /\ is_Some (pullRequest (syncState (initial ∅))).
Proof.
  split; [reflexivity|].
  destruct (C6_pull_ignores_in_flight_flag (syncState (initial ∅)) true (initial ∅))
    as (_ & _ & _ & H & _).
  apply H. reflexivity.
Defined.

Lemma C8_reconfiguration_witness :
  let n := mkPartial (Some github) None (Some (Some "tok")) (Some (Some "g1")) None None in
  let w := mkWorld (setLocalStorage (insert "theme" "dark") (initial ∅)) [] [] in
  routing (spread (syncState (app w)) n) <> routing (syncState (app w))
  /\ localStorage (app (step (SyncUpdate n) w)) !! "theme" = Some "dark"
  /\ filter (fun e => isPull e = true) (trace (app (step (SyncUpdate n) w)))
     = [PullFromGitHub "tok" "g1"].
Proof.
  cbv zeta.
  assert (routing (spread (syncState (app (mkWorld
              (setLocalStorage (insert "theme" "dark") (initial ∅)) [] [])))
            (mkPartial (Some github) None (Some (Some "tok")) (Some (Some "g1"))
                       None None))
          <> routing (syncState (app (mkWorld
              (setLocalStorage (insert "theme" "dark") (initial ∅)) [] []))))
    as Hne by discriminate.
  split; [exact Hne|].
  destruct (C8_reconfiguration
              (mkPartial (Some github) None (Some (Some "tok")) (Some (Some "g1")) None None)
              (mkWorld (setLocalStorage (insert "theme" "dark") (initial ∅)) [] []))
    as (_ & (_ & _ & _ & _ & Hkey) & _ & _ & _ & _ & Hpull).
  split.
  - rewrite (Hkey "theme") by discriminate. reflexivity.
  - exact (proj1 (Hpull Hne)).
Defined.

Lemma C10_timestamp_without_remote_write_witness :
  let captured := mkSyncState github (Some defaultRoom) (Some "tok") None None false in
  (provider captured = github /\ truthy (gistId captured) = false)
  /\ lastSynced (syncState (fst (persistLibrary captured [sampleBook] 42 (initial ∅))))
     = Some 42
  /\ trace (fst (persistLibrary captured [sampleBook] 42 (initial ∅))) = [].
Proof.
  cbv zeta. split; [split; reflexivity|].
  destruct (C10_timestamp_without_remote_write
              (mkSyncState github (Some defaultRoom) (Some "tok") None None false)
              (or_intror (or_introl (conj eq_refl (or_intror eq_refl))))
              [sampleBook] 42 (initial ∅))
    as (_ & Ht & _ & Hl & _).
  split; [exact Hl | exact Ht].
Defined.

(** * Further properties of the component *)

(** ** What a push leaves alone *)

Lemma persistLibrary_frame (captured : SyncState) (bs : list Book) (now : Z) (st : App) :
  let st' := fst (persistLibrary captured bs now st) in
  books st' = books st
  /\ selectedBook st' = selectedBook st
  /\ activeChapter st' = activeChapter st
  /\ status st' = status st
  /\ showUploader st' = showUploader st
  /\ showSyncModal st' = showSyncModal st
  /\ localStorage st' = localStorage st
  /\ provider (syncState st') = provider (syncState st)
  /\ trace st' = (trace st ++ option_list (pushRequest captured bs))%list.
Proof.
  cbv zeta. unfold persistLibrary.
  destruct (pushRequest captured bs); simpl; rewrite ?app_nil_r; done.
Qed.

Lemma persistLibrary_lastSynced (captured : SyncState) (bs : list Book) (now : Z) (st : App) :
  lastSynced (syncState (fst (persistLibrary captured bs now st)))
  = match pushRequest captured bs with
    | Some _ => lastSynced (syncState st)
    | None => Some now
    end.
Proof. unfold persistLibrary. by destruct (pushRequest captured bs). Qed.

Lemma pushRequest_books (captured : SyncState) (bs : list Book) (e : Effect) :
  pushRequest captured bs = Some e -> pushedBooks e = Some bs /\ isPush e = true.
Proof.
  unfold pushRequest.
  repeat match goal with |- context [if ?c then _ else _] => destruct c end;
    intros [= <-]; done.
Qed.

(** ** Deletion *)

Lemma handleDeleteBook_books (id : string) (now : Z) (st : App) :
  books (fst (handleDeleteBook id true now st))
  = filter (fun b => bk_id b <> id) (books st).
Proof.
  unfold handleDeleteBook. simpl.
  rewrite (proj1 (persistLibrary_frame _ _ _ _)).
  destruct (selectedBook st) as [s|]; [destruct (String.eqb (bk_id s) id)|]; done.
Qed.

Lemma handleDeleteBook_selectedBook (id : string) (now : Z) (st : App) :
  selectedBook (fst (handleDeleteBook id true now st))
  = match selectedBook st with
    | Some s => if String.eqb (bk_id s) id then None else Some s
    | None => None
    end.
Proof.
  unfold handleDeleteBook. simpl.
  rewrite (proj1 (proj2 (persistLibrary_frame _ _ _ _))).
  destruct (selectedBook st) as [s|] eqn:E; [destruct (String.eqb (bk_id s) id)|];
    simpl; done.
Qed.

(** X1: a confirmed deletion removes exactly the books whose id is the given
    one: a book is in the new list if and only if it was in the old list and
    has another id; the books kept stay in their order.  A declined
    confirmation leaves the whole state as it is and sends nothing. *)
Theorem delete_removes_by_id (id : string) (now : Z) (st : App) :
  let st' := fst (handleDeleteBook id true now st) in
  (forall b : Book, b ∈ books st' <-> b ∈ books st /\ bk_id b <> id)
  /\ books st' `sublist_of` books st
  /\ (length (books st') <= length (books st))%nat
  /\ handleDeleteBook id false now st = (st, false).
Proof.
  cbv zeta. rewrite handleDeleteBook_books. split; [|split; [|split]].
  - intros b. rewrite list_elem_of_filter. tauto.
  - apply sublist_filter.
  - apply length_filter.
  - reflexivity.
Qed.

(** X2: after a confirmed deletion the selection never points at a deleted
    book: it is cleared exactly when the selected book has the deleted id and
    kept otherwise.  If the selected id was the id of a listed book before,
    it still is afterwards.  The active chapter is never cleared, also when
    it belongs to the deleted book. *)
Theorem delete_keeps_selection_valid (id : string) (now : Z) (st : App) :
  let st' := fst (handleDeleteBook id true now st) in
  (forall s : Book, selectedBook st' = Some s ->
     bk_id s <> id /\ selectedBook st = Some s)
  /\ (forall s : Book, selectedBook st = Some s -> bk_id s <> id ->
        selectedBook st' = Some s)
  /\ ((forall s : Book, selectedBook st = Some s ->
         exists b, b ∈ books st /\ bk_id b = bk_id s) ->
      forall s : Book, selectedBook st' = Some s ->
        exists b, b ∈ books st' /\ bk_id b = bk_id s)
  /\ activeChapter st' = activeChapter st.
Proof.
  cbv zeta.
  assert (forall s : Book, selectedBook (fst (handleDeleteBook id true now st)) = Some s ->
            bk_id s <> id /\ selectedBook st = Some s) as Hsel.
  { intros s. rewrite handleDeleteBook_selectedBook.
    destruct (selectedBook st) as [s0|]; [|discriminate].
    destruct (String.eqb_spec (bk_id s0) id); [discriminate|].
    intros [= <-]. done. }
  split; [exact Hsel|]. split; [|split].
  - intros s E Hne. rewrite handleDeleteBook_selectedBook, E.
    destruct (String.eqb_spec (bk_id s) id); [contradiction | reflexivity].
  - intros Hvalid s Hs. destruct (Hsel s Hs) as [Hne Hold].
    destruct (Hvalid s Hold) as (b & Hb & Hid).
    exists b. split; [|exact Hid].
    rewrite handleDeleteBook_books. apply list_elem_of_filter.
    split; [congruence | exact Hb].
  - unfold handleDeleteBook. simpl.
    rewrite (proj1 (proj2 (proj2 (persistLibrary_frame _ _ _ _)))).
    destruct (selectedBook st) as [s|]; [destruct (String.eqb (bk_id s) id)|]; done.
Qed.

(** X3: deletions compose as removals of ids: deleting the same id a second
    time changes no book, and deleting two ids gives the same list in either
    order. *)
Theorem delete_idempotent_and_commutes (id1 id2 : string) (now1 now2 : Z) (st : App) :
  let del := fun id now st => fst (handleDeleteBook id true now st) in
  books (del id1 now2 (del id1 now1 st)) = books (del id1 now1 st)
  /\ books (del id2 now2 (del id1 now1 st)) = books (del id1 now2 (del id2 now1 st)).
Proof.
  cbv beta zeta. rewrite !handleDeleteBook_books. split.
  - rewrite list_filter_filter. apply list_filter_iff. tauto.
  - rewrite !list_filter_filter. apply list_filter_iff. tauto.
Qed.

(** X4: a confirmed deletion sends at most one request, and that request is a
    push carrying exactly the new local list, addressed by the routing of the
    state the handler ran in.  Deleting an id that no book has leaves the
    list as it is and sends the same push all the same. *)
Theorem delete_pushes_new_list (id : string) (now : Z) (st : App) :
  let st' := fst (handleDeleteBook id true now st) in
  trace st' = (trace st ++ option_list (pushRequest (syncState st) (books st')))%list
  /\ (forall e : Effect, pushRequest (syncState st) (books st') = Some e ->
        pushedBooks e = Some (books st') /\ isPush e = true)
  /\ (Forall (fun b => bk_id b <> id) (books st) -> books st' = books st).
Proof.
  cbv zeta. rewrite handleDeleteBook_books. split; [|split].
  - unfold handleDeleteBook. simpl.
    rewrite (proj2 (proj2 (proj2 (proj2 (proj2 (proj2 (proj2 (proj2
               (persistLibrary_frame _ _ _ _))))))))).
    destruct (selectedBook st) as [s|]; [destruct (String.eqb (bk_id s) id)|]; done.
  - intros e. apply pushRequest_books.
  - intros H. induction H as [|b bs Hb _ IH]; [done|].
    rewrite filter_cons_True by exact Hb. by rewrite IH.
Qed.

(** X5: a deletion is never rolled back.  Whatever error the push fails
    with, the book list and the selection stay as the deletion left them; and
    when a push was sent, the last-synchronised time is still the one from
    before the deletion. *)
Theorem delete_survives_push_failure
    (id : string) (now : Z) (m : option string) (st : App) :
  let st' := fst (handleDeleteBook id true now st) in
  let failed := persistLibrary_rejected m st' in
  books failed = filter (fun b => bk_id b <> id) (books st)
  /\ selectedBook failed = selectedBook st'
  /\ (is_Some (pushRequest (syncState st) (books st')) ->
      lastSynced (syncState failed) = lastSynced (syncState st)).
Proof.
  cbv zeta.
  assert (forall x, books (persistLibrary_rejected m x) = books x
                    /\ selectedBook (persistLibrary_rejected m x) = selectedBook x
                    /\ syncState (persistLibrary_rejected m x) = syncState x) as Hrej.
  { intros x. unfold persistLibrary_rejected. by case_bool_decide. }
  destruct (Hrej (fst (handleDeleteBook id true now st))) as (-> & -> & ->).
  split; [apply handleDeleteBook_books|]. split; [done|].
  rewrite handleDeleteBook_books. intros [e He].
  unfold handleDeleteBook. simpl.
  rewrite persistLibrary_lastSynced, He.
  destruct (selectedBook st) as [s|]; [destruct (String.eqb (bk_id s) id)|]; done.
Qed.

(** ** Errors other than [UNAUTHORIZED] *)

(** X6: a thrown value other than [null] and [undefined] whose message is
    not ["UNAUTHORIZED"] (or that has no message) is swallowed.  After a pull
    it clears the in-flight flag and nothing else: book list, provider,
    last-synchronised time, sync dialog and trace are untouched.  After a
    push it changes nothing at all, whichever handler sent the push.  A
    rejection with [null] or [undefined] is not swallowed: the [catch]
    itself throws at [err.message] before anything is written.  After a pull
    the state, the in-flight flag included, is left as it was.  After a push
    [persistLibrary] rejects: [handleDeleteBook] does nothing more, while the
    [catch] of [handleUpload] sets the status to [ERROR] and alerts, the
    book list staying as it is. *)
Theorem other_errors_are_swallowed (m : option string) (st : App) :
  m <> Some "UNAUTHORIZED" ->
  let pulled := refreshLibrary_caught (ThrownObject m) st in
  (pulled = setSyncState (withIsSyncing false) st
   /\ books pulled = books st
   /\ provider (syncState pulled) = provider (syncState st)
   /\ lastSynced (syncState pulled) = lastSynced (syncState st)
   /\ isSyncing (syncState pulled) = false
   /\ showSyncModal pulled = showSyncModal st
   /\ trace pulled = trace st)
  /\ (persistLibrary_caught (ThrownObject m) st = (st, false)
      /\ handleDeleteBook_pushFailed (ThrownObject m) st = st
      /\ handleUpload_pushFailed (ThrownObject m) st = st)
  /\ (refreshLibrary_caught ThrownNullish st = st
      /\ persistLibrary_caught ThrownNullish st = (st, true)
      /\ handleDeleteBook_pushFailed ThrownNullish st = st
      /\ handleUpload_pushFailed ThrownNullish st = handleUpload_rejected st
      /\ status (handleUpload_pushFailed ThrownNullish st) = ERROR
      /\ books (handleUpload_pushFailed ThrownNullish st) = books st
      /\ filter (fun e => isUserNotice e = true)
                (trace (handleUpload_pushFailed ThrownNullish st))
         = (filter (fun e => isUserNotice e = true) (trace st)
            ++ [Alert "Failed to process the document. Please try again."])%list).
Proof.
  intros Hm. cbv zeta.
  unfold handleUpload_pushFailed, handleDeleteBook_pushFailed,
    persistLibrary_caught, refreshLibrary_caught,
    refreshLibrary_rejected, persistLibrary_rejected.
  rewrite bool_decide_eq_false_2 by exact Hm.
  split_and!; try done.
  unfold handleUpload_rejected. simpl. rewrite !filter_app. simpl.
  by rewrite app_nil_r.
Qed.

(** ** Routing of pushes and pulls *)

(** X7: a push and a pull made under the same routing address the same
    remote: a push goes to a gist exactly when a pull reads that gist with
    that token, and a push to a room implies that a pull reads that room.
    The one routing under which a pull is sent but no push is the provider
    ['public'] with an empty room id; the pull then names no room. *)
Theorem push_and_pull_share_routing (captured : SyncState) (bs : list Book) :
  (forall t g : string,
     pushRequest captured bs = Some (PushToGitHub bs t g)
     <-> pullRequest captured = Some (PullFromGitHub t g))
  /\ (forall r : string,
        pushRequest captured bs = Some (PushToPublic bs r) ->
        pullRequest captured = Some (PullFromPublic (Some r)))
  /\ (pushRequest captured bs = None /\ is_Some (pullRequest captured)
      <-> provider captured = public /\ truthy (roomId captured) = false)
  /\ (provider captured = public -> truthy (roomId captured) = false ->
      pullRequest captured = Some (PullFromPublic None)).
Proof.
  unfold pushRequest, pullRequest.
  destruct (provider captured) eqn:Ep; simpl;
    destruct (truthy (githubToken captured)) eqn:Et;
    destruct (truthy (gistId captured)) eqn:Eg;
    destruct (truthy (roomId captured)) eqn:Er; simpl;
    split_and!; intros; try (split; intros); try congruence; try done;
    try (destruct_and?; congruence); try (by destruct_and?; eauto);
    try (destruct_and?; match goal with H : is_Some None |- _ => by destruct H end).
  all: match goal with
       | H : Some (PushToPublic _ _) = Some (PushToPublic _ _) |- _ =>
           injection H as <-
       end.
  all: by rewrite (truthy_str _ Er).
Qed.

(** ** Persisted configuration *)

Lemma parseProvider_providerString (p : SyncProvider) :
  parseProvider (providerString p) = p.
Proof. by destruct p. Qed.

Lemma handleSyncUpdate_localStorage (n : PartialSyncState) (st : App) :
  let updated := spread (syncState st) n in
  let ls := localStorage (handleSyncUpdate n st) in
  ls !! "sync_provider" = Some (providerString (provider updated))
  /\ ls !! "sync_room_id"
     = (if truthy (roomId updated) then roomId updated
        else localStorage st !! "sync_room_id")
  /\ ls !! "sync_github_token"
     = (if truthy (githubToken updated) then githubToken updated else None)
  /\ ls !! "sync_gist_id"
     = (if truthy (gistId updated) then gistId updated else None).
Proof.
  cbv zeta. unfold handleSyncUpdate, setItemIfTruthy, setOrRemoveItem.
  rewrite truthy_providerString.
  set (u := spread (syncState st) n).
  destruct (truthy (roomId u)) eqn:Er, (truthy (githubToken u)) eqn:Et,
           (truthy (gistId u)) eqn:Eg; simpl;
    rewrite ?(truthy_str _ Er), ?(truthy_str _ Et), ?(truthy_str _ Eg);
    repeat split; simplify_map_eq; try reflexivity;
    rewrite ?(truthy_str _ Er), ?(truthy_str _ Et), ?(truthy_str _ Eg);
    reflexivity.
Qed.

Lemma initial_room_truthy (ls : gmap string string) :
  truthy (roomId (syncState (initial ls))) = true.
Proof.
  simpl. destruct (ls !! "sync_room_id") as [u|]; simpl; [|reflexivity].
  destruct (String.eqb u "") eqn:E; simpl; [reflexivity | by rewrite E].
Qed.

(** X8: what a reconfiguration writes to local storage is what the next
    start reads back.  The state initialised from the storage left by
    [handleSyncUpdate] has the new provider; the new token and gist id, an
    empty one coming back as [null]; and the new room id when it is
    non-empty.  An empty new room id is not stored: the start then finds the
    room id stored before, or the default room when there was none.  The
    last-synchronised time and the in-flight flag are not persisted. *)
Theorem reconfiguration_survives_reload (n : PartialSyncState) (st : App) :
  let updated := spread (syncState st) n in
  let reloaded := syncState (initial (localStorage (handleSyncUpdate n st))) in
  provider reloaded = provider updated
  /\ githubToken reloaded
     = (if truthy (githubToken updated) then githubToken updated else None)
  /\ gistId reloaded
     = (if truthy (gistId updated) then gistId updated else None)
  /\ roomId reloaded
     = Some (if truthy (roomId updated) then str (roomId updated)
             else if truthy (localStorage st !! "sync_room_id")
                  then str (localStorage st !! "sync_room_id")
                  else defaultRoom)
  /\ lastSynced reloaded = None
  /\ isSyncing reloaded = false.
Proof.
  cbv zeta.
  destruct (handleSyncUpdate_localStorage n st) as (Hp & Hr & Ht & Hg).
  remember (spread (syncState st) n) as u eqn:Eu. clear Eu.
  unfold initial.
  cbn [syncState provider githubToken gistId roomId lastSynced isSyncing].
  rewrite Hp, Hr, Ht, Hg.
  rewrite truthy_providerString.
  simpl. rewrite parseProvider_providerString.
  split_and!; try reflexivity.
  destruct (truthy (roomId u)) eqn:Er; [|reflexivity].
  by rewrite Er.
Qed.

(** X9: with no provider stored (the key missing or empty) the component
    starts on the provider ['public'] with a room id that is never empty,
    and its first effect sends one pull to that room, raises the in-flight
    flag and registers the 60 s interval with a silent pull. *)
Theorem start_without_stored_provider (ls : gmap string string) :
  truthy (ls !! "sync_provider") = false ->
  let room := if truthy (ls !! "sync_room_id")
              then str (ls !! "sync_room_id") else defaultRoom in
  provider (syncState (initial ls)) = public
  /\ room <> ""
  /\ trace (app (boot ls))
     = [PullFromPublic (Some room);
        SetInterval (RefreshLibrary (syncState (initial ls)) true) 60000]
  /\ isSyncing (syncState (app (boot ls))) = true
  /\ books (app (boot ls)) = []
  /\ lastSynced (syncState (app (boot ls))) = None.
Proof.
  intros Hp. cbv zeta.
  pose proof (initial_room_truthy ls) as Hroom.
  unfold boot, useEffect_refresh, refreshLibrary, pullRequest.
  simpl in *. rewrite Hp in *. simpl.
  destruct (truthy (ls !! "sync_room_id")) eqn:Er; simpl;
    rewrite ?Hroom; split_and!; try done.
  - intros E. rewrite E in Hroom. discriminate.
Qed.

(** ** The pull scheduled by a reconfiguration *)

(** X10: the pull that [handleSyncUpdate] hands to its timer is the
    [refreshLibrary] of the render that ran the handler.  When the timer
    fires, the request sent is the one for the routing in force before the
    reconfiguration, whatever the new provider, room or credentials are; it
    is not silent, so it raises the in-flight flag. *)
Theorem reconfiguration_timer_pulls_old_routing (n : PartialSyncState) (st : App) :
  let st' := handleSyncUpdate n st in
  let task := RefreshLibrary (syncState st) false in
  let fired := fst (runTask task st') in
  last (trace st') = Some (SetTimeout task 100)
  /\ trace fired = (trace st' ++ option_list (pullRequest (syncState st)))%list
  /\ snd (runTask task st') = bool_decide (is_Some (pullRequest (syncState st)))
  /\ (is_Some (pullRequest (syncState st)) -> isSyncing (syncState fired) = true)
  /\ provider (syncState fired) = provider (spread (syncState st) n).
Proof.
  cbv zeta. simpl. unfold refreshLibrary.
  split_and!.
  - unfold handleSyncUpdate. simpl. apply last_snoc.
  - destruct (pullRequest (syncState st)); simpl; rewrite ?app_nil_r; done.
  - by destruct (pullRequest (syncState st)).
  - intros [e He]. by rewrite He.
  - destruct (pullRequest (syncState st)); simpl;
      unfold handleSyncUpdate, setItemIfTruthy, setOrRemoveItem;
      repeat match goal with |- context [if ?c then _ else _] => destruct c end;
      reflexivity.
Qed.

(** ** The in-flight flag *)

(** X11: [isSyncing] is a flag, not a count.  With two non-silent pulls
    outstanding, the completion of one of them with a result, present or
    absent, or with a thrown value other than [null] and [undefined], clears
    the flag while the other is still outstanding.  A rejection with [null]
    or [undefined] leaves the flag set.  A silent pull that sends a request
    leaves the flag as it found it. *)
Theorem in_flight_flag_is_not_a_count
    (captured : SyncState) (st : App)
    (r : option (list Book)) (now : Z) (m : option string) :
  is_Some (pullRequest captured) ->
  let st1 := fst (refreshLibrary captured false st) in
  let st2 := fst (refreshLibrary captured false st1) in
  length (filter (fun e => isPull e = true) (trace st2))
  = S (S (length (filter (fun e => isPull e = true) (trace st))))
  /\ isSyncing (syncState st2) = true
  /\ isSyncing (syncState (refreshLibrary_resolved r now st2)) = false
  /\ isSyncing (syncState (refreshLibrary_caught (ThrownObject m) st2)) = false
  /\ isSyncing (syncState (refreshLibrary_caught ThrownNullish st2)) = true
  /\ isSyncing (syncState (fst (refreshLibrary captured true st)))
     = isSyncing (syncState st).
Proof.
  intros [e He]. cbv zeta. unfold refreshLibrary. rewrite He. simpl.
  assert (isPull e = true) as Hpull.
  { unfold pullRequest in He.
    repeat match type of He with context [if ?c then _ else _] => destruct c end;
      by inversion He. }
  split_and!.
  - rewrite <- app_assoc, filter_app, length_app. simpl.
    rewrite filter_cons_True by exact Hpull.
    rewrite filter_cons_True by exact Hpull. simpl. lia.
  - done.
  - by destruct r.
  - unfold refreshLibrary_rejected.
    by destruct (bool_decide (m = Some "UNAUTHORIZED")).
  - done.
  - done.
Qed.

(** ** The book built by an upload *)

Lemma noDash_pretty_N_go (x : N) (s : string) :
  noDash s = true -> noDash (pretty_N_go x s) = true.
Proof.
  revert s. induction (N.lt_wf_0 x) as [x _ IH]; intros s Hs.
  assert (x = 0 \/ 0 < x)%N as [->|Hx] by lia.
  - by rewrite pretty_N_go_0.
  - rewrite pretty_N_go_step by exact Hx. apply IH.
    + by apply N.div_lt.
    + simpl. rewrite Hs. unfold pretty_N_char. by repeat case_match.
Qed.

Lemma noDash_pretty_nat (i : nat) : noDash (pretty i) = true.
Proof.
  unfold pretty, pretty_nat, pretty, pretty_N.
  case_decide; [reflexivity|]. by apply noDash_pretty_N_go.
Qed.

Lemma noDash_after_dash (a d : string) : noDash (a +:+ "-" +:+ d) = false.
Proof.
  induction a as [|c a IH]; simpl; [reflexivity|].
  rewrite IH. apply andb_false_r.
Qed.

(** The text after the last dash of a string determines itself. *)
Lemma after_last_dash_inj (a b d1 d2 : string) :
  noDash d1 = true -> noDash d2 = true ->
  a +:+ "-" +:+ d1 = b +:+ "-" +:+ d2 -> d1 = d2.
Proof.
  intros H1 H2. revert b.
  induction a as [|c a IH]; intros [|c' b] E; simpl in E.
  - by injection E.
  - injection E as _ E. change ("" +:+ d1) with d1 in E.
    rewrite E, noDash_after_dash in H1. discriminate.
  - injection E as _ E. change ("" +:+ d2) with d2 in E.
    rewrite <- E, noDash_after_dash in H2. discriminate.
  - injection E as _ E. by apply (IH b).
Qed.

Lemma newChapters_lookup (clock : nat -> Z) (cs : list RawChapter) (i : nat) :
  newChapters clock cs !! i
  = (fun c => mkChapter (pretty (clock (S i)) +:+ "-" +:+ pretty i)
                        (r_title c) (r_text c) None None) <$> cs !! i.
Proof. unfold newChapters. apply list_lookup_imap. Qed.

(** X12: the chapters of a book built by an upload have pairwise distinct
    ids, whatever values the clock returns during the construction (also
    when it returns the same value every time). *)
Theorem upload_chapter_ids_distinct
    (customTitle : option string) (result : Extraction) (clock : nat -> Z) :
  NoDup (ch_id <$> chapters (newBook customTitle result clock)).
Proof.
  simpl. apply NoDup_alt. intros i j x Hi Hj.
  rewrite list_lookup_fmap, newChapters_lookup in Hi, Hj.
  destruct (x_chapters result !! i) as [ci|]; [|discriminate].
  destruct (x_chapters result !! j) as [cj|]; [|discriminate].
  simpl in Hi, Hj. injection Hi as Hi. injection Hj as Hj.
  rewrite <- Hj in Hi.
  apply after_last_dash_inj in Hi; [|apply noDash_pretty_nat..].
  by apply (inj pretty) in Hi.
Qed.

(** X13: the book built by an upload keeps the extracted chapters one for
    one: same number, same order, same titles and texts, the id made of the
    clock value and the index; none of them has an audio reference or a
    duration.  Its title is never empty: a non-empty custom title wins; else
    a non-empty extracted title; else the fixed fallback "Untitled Dastan".
    The author is the fixed "Urdu Scholar" and there is no cover.  Playing
    any of its chapters is therefore a cache miss: it always sends one
    generation request. *)
Theorem upload_book_chapters
    (customTitle : option string) (result : Extraction) (clock : nat -> Z) :
  let b := newBook customTitle result clock in
  length (chapters b) = length (x_chapters result)
  /\ (forall (i : nat) (raw : RawChapter), x_chapters result !! i = Some raw ->
        exists c, chapters b !! i = Some c
          /\ ch_id c = pretty (clock (S i)) +:+ "-" +:+ pretty i
          /\ ch_title c = r_title raw /\ ch_text c = r_text raw
          /\ audioUrl c = None /\ duration c = None)
  /\ bk_title b <> ""
  /\ (truthy customTitle = true -> Some (bk_title b) = customTitle)
  /\ (truthy customTitle = false -> truthy (x_title result) = true ->
      Some (bk_title b) = x_title result)
  /\ (truthy customTitle = false -> truthy (x_title result) = false ->
      bk_title b = "Untitled Dastan")
  /\ (author b = "Urdu Scholar" /\ coverImage b = None
      /\ bk_id b = pretty (clock 0%nat)
      /\ createdAt b = clock (S (length (x_chapters result))))
  /\ (forall (c : Chapter) (st : App), c ∈ chapters b ->
        is_Some (snd (handleChapterPlay c st))
        /\ generationRequests (fst (handleChapterPlay c st))
           = S (generationRequests st)
        /\ status (fst (handleChapterPlay c st)) = GENERATING_AUDIO).
Proof.
  cbv zeta. split_and!; try reflexivity.
  - unfold newBook, newChapters. simpl. apply length_imap.
  - intros i raw Hi. simpl. rewrite newChapters_lookup, Hi. simpl.
    eexists. split; [reflexivity|]. done.
  - simpl. unfold newTitle.
    destruct (truthy customTitle) eqn:Ec.
    { apply truthy_Some in Ec as (u & -> & Hu). exact Hu. }
    destruct (truthy (x_title result)) eqn:Ex; [|discriminate].
    apply truthy_Some in Ex as (u & -> & Hu). exact Hu.
  - intros Ec. simpl. unfold newTitle. rewrite Ec. by apply truthy_str.
  - intros Ec Ex. simpl. unfold newTitle. rewrite Ec, Ex. by apply truthy_str.
  - intros Ec Ex. simpl. unfold newTitle. by rewrite Ec, Ex.
  - intros c st Hc. simpl in Hc.
    apply list_elem_of_lookup in Hc as [i Hi].
    rewrite newChapters_lookup in Hi.
    destruct (x_chapters result !! i) as [raw|]; [|discriminate].
    injection Hi as <-.
    unfold handleChapterPlay. simpl. split_and!; [by eexists| |reflexivity].
    rewrite generationRequests_emit. simpl. unfold generationRequests. simpl. lia.
Qed.

(** ** Upload *)

(** X14: when the extraction resolves, the new book is put in front of the
    list the handler captured on submission and the rest of that list
    follows unchanged; the status returns to [IDLE], the uploader is closed,
    the selection is kept; and the only request sent is a push that carries
    exactly the new list, addressed by the routing captured on submission. *)
Theorem upload_prepends_and_pushes
    (k : UploadK) (customTitle : option string) (result : Extraction)
    (clock : nat -> Z) (now : Z) (st : App) :
  let b := newBook customTitle result clock in
  let st' := fst (handleUpload_extracted k customTitle result clock now st) in
  books st' = b :: u_books k
  /\ status st' = IDLE
  /\ showUploader st' = false
  /\ selectedBook st' = selectedBook st
  /\ trace st' = (trace st ++ option_list (pushRequest (u_syncState k) (books st')))%list
  /\ (forall e : Effect, pushRequest (u_syncState k) (books st') = Some e ->
        pushedBooks e = Some (books st')).
Proof.
  cbv zeta. unfold handleUpload_extracted, handleUpload_resolved.
  set (bs := newBook customTitle result clock :: u_books k).
  destruct (persistLibrary_frame (u_syncState k) bs now
              (setStatus IDLE (setShowUploader false (setBooks bs st))))
    as (Hb & Hsel & _ & Hst & Hup & _ & _ & _ & Htr).
  rewrite Hb, Hsel, Hst, Hup, Htr. simpl.
  split_and!; try reflexivity.
  intros e He. by apply pushRequest_books in He as [? _].
Qed.

(** X15: when the extraction fails, no book is added and nothing is pushed:
    the book list, the selection and the synchronisation state are untouched;
    the status becomes [ERROR]; the user is alerted; and the uploader is left
    open.  In the transition system the failed upload is dropped. *)
Theorem upload_failure_adds_nothing (st : App) (w : World) (n : nat) :
  let st' := handleUpload_rejected st in
  books st' = books st
  /\ selectedBook st' = selectedBook st
  /\ syncState st' = syncState st
  /\ showUploader st' = showUploader st
  /\ status st' = ERROR
  /\ trace st'
     = (trace st ++ [ConsoleError;
                     Alert "Failed to process the document. Please try again."])%list
  /\ filter (fun e => isPush e = true) (trace st')
     = filter (fun e => isPush e = true) (trace st)
  /\ books (app (step (ExtractRejected n) w)) = books (app w)
  /\ (length (extracting (step (ExtractRejected n) w)) <= length (extracting w))%nat.
Proof.
  cbv zeta. unfold handleUpload_rejected. split_and!; try reflexivity.
  - simpl. by rewrite <- app_assoc.
  - simpl. rewrite !filter_app. simpl. by rewrite !app_nil_r.
  - rewrite (proj1 (step_app _ _)), (proj1 (rerender_frame _ _)). simpl.
    by destruct (extracting w !! n).
  - rewrite (proj2 (proj2 (step_app _ _))). simpl.
    destruct (extracting w !! n) eqn:E; simpl; [|lia].
    rewrite length_delete by eauto. lia.
Qed.

(** ** Handlers that resume on a captured list *)

(** X16: an upload resumes on the book list captured when it was submitted.
    Whatever the state has become by the time the extraction resolves, the
    new list is the new book followed by that captured list.  In particular
    a book deleted while the extraction was outstanding is in the list again
    afterwards, and the push then sent carries it. *)
Theorem upload_restores_book_deleted_meanwhile
    (id : string) (now1 now2 : Z) (nb : Book) (st mid : App) :
  let submitted := handleUpload st in
  let deleted := fst (handleDeleteBook id true now1 (fst submitted)) in
  let resumed := fst (handleUpload_resolved (snd submitted) nb now2 deleted) in
  books (fst (handleUpload_resolved (snd submitted) nb now2 mid)) = nb :: books st
  /\ Forall (fun b => bk_id b <> id) (books deleted)
  /\ books resumed = nb :: books st
  /\ (forall b : Book, b ∈ books st -> b ∈ books resumed)
  /\ trace resumed
     = (trace deleted
        ++ option_list (pushRequest (syncState st) (nb :: books st)))%list.
Proof.
  cbv zeta.
  assert (forall x, books (fst (handleUpload_resolved (snd (handleUpload st)) nb now2 x))
                    = nb :: books st) as Hres.
  { intros x. unfold handleUpload_resolved.
    by rewrite (proj1 (persistLibrary_frame _ _ _ _)). }
  split_and!.
  - apply Hres.
  - rewrite handleDeleteBook_books. apply Forall_forall.
    intros b Hb. by apply list_elem_of_filter in Hb as [? _].
  - apply Hres.
  - intros b Hb. rewrite Hres. by apply list_elem_of_further.
  - unfold handleUpload_resolved.
    by rewrite (proj2 (proj2 (proj2 (proj2 (proj2 (proj2 (proj2 (proj2
                  (persistLibrary_frame _ _ _ _))))))))).
Qed.

Lemma handleChapterPlay_resolved_syncState (k : PlayK) (url : string) (st : App) :
  syncState (handleChapterPlay_resolved k url st) = syncState st
  /\ localStorage (handleChapterPlay_resolved k url st) = localStorage st.
Proof.
  unfold handleChapterPlay_resolved.
  pose proof (mapBooks_snd k url (k_books k) st) as E.
  destruct (mapBooks k url (k_books k) st) as [r st1]. simpl in E.
  destruct E as (_ & _ & Hs & _ & Hl).
  destruct (currentChapter k r); simpl; by rewrite Hs, Hl.
Qed.

(** X17: a generation resumes on the book list captured when play was
    clicked.  If a pull is applied while the generation is outstanding, the
    pulled list is replaced, when the generation resolves, by the captured
    list with the audio attached; the last-synchronised time recorded by
    that pull stays. *)
Theorem generation_overwrites_pull_applied_meanwhile
    (chapter : Chapter) (st : App) (remote : list Book) (now : Z) (url : string) :
  truthy (audioUrl chapter) = false ->
  let started := handleChapterPlay chapter st in
  let k := mkPlayK chapter (books st) (selectedBook st) in
  let pulled := refreshLibrary_resolved (Some remote) now (fst started) in
  let resumed := handleChapterPlay_resolved k url pulled in
  snd started = Some k
  /\ books pulled = remote
  /\ books resumed
     = attachAudio (selectedBook st) (ch_id chapter) url (books st)
  /\ length (books resumed) = length (books st)
  /\ lastSynced (syncState resumed) = Some now.
Proof.
  intros Hc. cbv zeta. unfold handleChapterPlay. rewrite Hc.
  rewrite handleChapterPlay_resolved_books.
  rewrite (proj1 (handleChapterPlay_resolved_syncState _ _ _)).
  split_and!; try reflexivity.
  unfold attachAudio. apply length_map.
Qed.

(** ** Filling the cache *)

Lemma mapBooks_selectedBook (k : PlayK) (url : string) (bs : list Book) (st : App) :
  selectedBook (snd (mapBooks k url bs st))
  = match last (filter (fun b => isSelected (k_selectedBook k) b = true) bs) with
    | Some b => Some (updatedBook (ch_id (k_chapter k)) url b)
    | None => selectedBook st
    end.
Proof.
  revert st. induction bs as [|b bs IH]; intros st; [reflexivity|].
  cbn [mapBooks]. destruct (isSelected (k_selectedBook k) b) eqn:E.
  - rewrite filter_cons_True by exact E.
    specialize (IH (setSelectedBook (Some (updatedBook (ch_id (k_chapter k)) url b)) st)).
    destruct (mapBooks k url bs _) as [r st']. simpl in *. rewrite IH.
    rewrite last_cons.
    by destruct (last (filter _ bs)).
  - rewrite filter_cons_False by (rewrite E; discriminate).
    specialize (IH st).
    destruct (mapBooks k url bs st) as [r st']. simpl in *. exact IH.
Qed.

Lemma handleChapterPlay_resolved_selectedBook (k : PlayK) (url : string) (st : App) :
  selectedBook (handleChapterPlay_resolved k url st)
  = match last (filter (fun b => isSelected (k_selectedBook k) b = true) (k_books k)) with
    | Some b => Some (updatedBook (ch_id (k_chapter k)) url b)
    | None => selectedBook st
    end.
Proof.
  rewrite <- mapBooks_selectedBook. unfold handleChapterPlay_resolved.
  destruct (mapBooks k url (k_books k) st) as [r st1].
  destruct (currentChapter k r); reflexivity.
Qed.

(** X18: a successful generation fills the cache for what is on screen.  If
    the captured list holds a book with the id of the captured selection,
    then after the generation resolved with a non-empty reference the
    selected book is a member of the new book list with that same id, and
    every play button for a chapter with the generated chapter's id shows a
    chapter that carries the new reference: clicking it sends no request. *)
Theorem generation_fills_cache (k : PlayK) (url : string) (st : App) (s : Book) :
  url <> "" ->
  k_selectedBook k = Some s ->
  (exists b, b ∈ k_books k /\ bk_id b = bk_id s) ->
  let st' := handleChapterPlay_resolved k url st in
  (exists b', selectedBook st' = Some b' /\ b' ∈ books st' /\ bk_id b' = bk_id s)
  /\ (forall c : Chapter, c ∈ playButtons st' -> ch_id c = ch_id (k_chapter k) ->
        audioUrl c = Some url
        /\ snd (handleChapterPlay c st') = None
        /\ trace (fst (handleChapterPlay c st')) = trace st).
Proof.
  intros Hurl Hsel (b & Hb & Hid). cbv zeta.
  assert (exists b0, last (filter (fun b => isSelected (k_selectedBook k) b = true)
                            (k_books k)) = Some b0
                     /\ b0 ∈ k_books k /\ bk_id b0 = bk_id s) as (b0 & Hlast & Hb0 & Hid0).
  { destruct (last (filter (fun b => isSelected (k_selectedBook k) b = true) (k_books k)))
      as [b0|] eqn:E.
    - exists b0. split; [reflexivity|].
      apply last_Some_elem_of, list_elem_of_filter in E as [Hs0 Hin].
      split; [exact Hin|]. rewrite Hsel in Hs0. by apply isSelected_Some.
    - apply last_None in E. exfalso.
      apply (filter_nil_not_elem_of _ _ b E); [|exact Hb].
      rewrite Hsel. by apply isSelected_Some. }
  assert (selectedBook (handleChapterPlay_resolved k url st)
          = Some (updatedBook (ch_id (k_chapter k)) url b0)) as Hnew.
  { by rewrite handleChapterPlay_resolved_selectedBook, Hlast. }
  split.
  - eexists. split; [exact Hnew|]. split; [|exact Hid0].
    rewrite handleChapterPlay_resolved_books. unfold attachAudio.
    apply list_elem_of_fmap. exists b0. split; [|exact Hb0].
    rewrite Hsel. by rewrite (proj2 (isSelected_Some s b0) Hid0).
  - intros c Hc Hcid. unfold playButtons in Hc. rewrite Hnew in Hc. simpl in Hc.
    apply list_elem_of_fmap in Hc as (c0 & -> & _).
    assert (audioUrl (attachChapter (ch_id (k_chapter k)) url c0) = Some url) as Ha.
    { unfold attachChapter in *.
      destruct (String.eqb_spec (ch_id c0) (ch_id (k_chapter k))); [reflexivity|].
      contradiction. }
    split; [exact Ha|].
    unfold handleChapterPlay. rewrite Ha. simpl.
    destruct (String.eqb_spec url ""); [contradiction|]. simpl.
    split; [reflexivity|].
    apply (proj2 (handleChapterPlay_resolved_quiet k url st)).
Qed.

Lemma mapBooks_no_match (k : PlayK) (url : string) (bs : list Book) (st : App) :
  Forall (fun b => isSelected (k_selectedBook k) b = false) bs ->
  mapBooks k url bs st = (bs, st).
Proof.
  induction 1 as [|b bs Hb _ IH]; [reflexivity|].
  cbn [mapBooks]. by rewrite Hb, IH.
Qed.

Lemma find_no_match (sel : option Book) (bs : list Book) :
  Forall (fun b => isSelected sel b = false) bs -> find (isSelected sel) bs = None.
Proof.
  induction 1 as [|b bs Hb _ IH]; [reflexivity|]. simpl. by rewrite Hb.
Qed.

(** X19: when the callback resumes with no selected book, or with a selected
    book whose id no book of the captured list has, the generated audio is
    dropped without notice: the reference is stored nowhere, the selection
    and the active chapter are as before, nothing is reported; only the
    status returns to [IDLE] and the book list becomes the captured list. *)
Theorem generation_result_dropped_without_book (k : PlayK) (url : string) (st : App) :
  (k_selectedBook k = None
   \/ exists s, k_selectedBook k = Some s
                /\ Forall (fun b => bk_id b <> bk_id s) (k_books k)) ->
  handleChapterPlay_resolved k url st = setStatus IDLE (setBooks (k_books k) st)
  /\ selectedBook (handleChapterPlay_resolved k url st) = selectedBook st
  /\ activeChapter (handleChapterPlay_resolved k url st) = activeChapter st
  /\ trace (handleChapterPlay_resolved k url st) = trace st.
Proof.
  intros H.
  assert (Forall (fun b => isSelected (k_selectedBook k) b = false) (k_books k)) as Hno.
  { destruct H as [-> | (s & -> & Hs)].
    - by apply Forall_forall.
    - eapply Forall_impl; [exact Hs|]. intros b Hne. simpl.
      by apply String.eqb_neq. }
  assert (handleChapterPlay_resolved k url st = setStatus IDLE (setBooks (k_books k) st))
    as E.
  { unfold handleChapterPlay_resolved. rewrite (mapBooks_no_match _ _ _ _ Hno).
    unfold currentChapter.
    by rewrite (find_no_match _ _ Hno). }
  rewrite E. done.
Qed.

(** ** Invariants of whole runs *)

Lemma run_invariant (P : World -> Prop) (ok : Event -> bool) :
  (forall e w, ok e = true -> P w -> P (step e w)) ->
  forall es w, Forall (fun e => ok e = true) es -> P w -> P (run es w).
Proof.
  intros Hstep es. induction es as [|e es IH]; intros w Hes Hw; [exact Hw|].
  apply Forall_cons in Hes as [He Hes]. simpl. apply IH; [exact Hes|].
  by apply Hstep.
Qed.

Lemma handle_status (e : Event) (w : World) :
  statusInUse (status (app w)) = true ->
  statusInUse (status (app (handle e w))) = true.
Proof.
  intros Hw. destruct e; cbn [handle withApp app].
  - unfold clickPlay. destruct (playButtons (app w) !! i); [|exact Hw].
    destruct (playDisabled (app w)); [exact Hw|].
    unfold handleChapterPlay. by destruct (truthy (audioUrl c)).
  - destruct (generating w !! n); [|exact Hw]. simpl.
    by rewrite (proj1 (handleChapterPlay_resolved_quiet _ _ _)).
  - by destruct (generating w !! n).
  - reflexivity.
  - destruct (extracting w !! n); [|exact Hw]. simpl.
    unfold handleUpload_resolved.
    by rewrite (proj1 (proj2 (proj2 (proj2 (persistLibrary_frame _ _ _ _))))).
  - by destruct (extracting w !! n).
  - by destruct (books (app w) !! i).
  - destruct t as [c s].
    change (statusInUse (status (fst (refreshLibrary c s (app w)))) = true).
    by rewrite refreshLibrary_status.
  - by destruct remoteBooks.
  - by rewrite refreshLibrary_caught_status.
  - exact Hw.
  - unfold handleDeleteBook_pushFailed. by rewrite persistLibrary_caught_status.
  - unfold handleUpload_pushFailed. destruct err; simpl; [reflexivity|].
    by rewrite persistLibrary_rejected_status.
  - by rewrite handleDeleteBook_status.
  - by rewrite handleSyncUpdate_status.
Qed.

Lemma step_status (e : Event) (w : World) :
  statusInUse (status (app w)) = true ->
  statusInUse (status (app (step e w))) = true.
Proof.
  intros Hw. rewrite (proj1 (step_app _ _)), (proj1 (proj2 (rerender_frame _ _))).
  by apply handle_status.
Qed.

(** X20: of the six values of [ProcessingStatus] the component only ever
    uses four.  In every run from the start, with any events in any order,
    the status is [IDLE], [EXTRACTING], [GENERATING_AUDIO] or [ERROR]; it is
    never [SPLITTING] and never [COMPLETED]. *)
Theorem status_never_splitting_or_completed
    (ls : gmap string string) (es : list Event) :
  let s := status (app (run es (boot ls))) in
  (s = IDLE \/ s = EXTRACTING \/ s = GENERATING_AUDIO \/ s = ERROR)
  /\ s <> SPLITTING /\ s <> COMPLETED.
Proof.
  cbv zeta.
  assert (statusInUse (status (app (run es (boot ls)))) = true) as H.
  { apply (run_invariant (fun w => statusInUse (status (app w)) = true)
                         (fun _ => true)).
    - intros e w _. apply step_status.
    - by apply Forall_forall.
    - unfold boot, useEffect_refresh.
      destruct (refreshLibrary (syncState (initial ls)) false (initial ls)) as [st1 i] eqn:E.
      simpl. replace st1 with (fst (refreshLibrary (syncState (initial ls)) false (initial ls)))
        by (by rewrite E).
      by rewrite refreshLibrary_status. }
  destruct (status (app (run es (boot ls)))); simpl in H; try discriminate;
    split_and!; auto; discriminate.
Qed.

Lemma refreshLibrary_config (captured : SyncState) (silent : bool) (st : App) :
  let st' := fst (refreshLibrary captured silent st) in
  localStorage st' = localStorage st
  /\ provider (syncState st') = provider (syncState st)
  /\ lastSynced (syncState st') = lastSynced (syncState st)
  /\ selectedBook st' = selectedBook st
  /\ activeChapter st' = activeChapter st
  /\ books st' = books st.
Proof.
  cbv zeta. unfold refreshLibrary.
  by destruct (pullRequest captured), silent.
Qed.

Lemma handleDeleteBook_config (id : string) (confirmed : bool) (now : Z) (st : App) :
  let st' := fst (handleDeleteBook id confirmed now st) in
  localStorage st' = localStorage st
  /\ provider (syncState st') = provider (syncState st)
  /\ (is_Some (lastSynced (syncState st)) -> is_Some (lastSynced (syncState st'))).
Proof.
  cbv zeta. unfold handleDeleteBook, persistLibrary.
  destruct confirmed; [|done]. simpl.
  destruct (pushRequest _ _), (selectedBook st) as [s|];
    try destruct (String.eqb (bk_id s) id); simpl; split_and!; eauto.
Qed.

Lemma handle_config (e : Event) (w : World) :
  isSyncUpdate e = false ->
  localStorage (app (handle e w)) = localStorage (app w)
  /\ (provider (syncState (app (handle e w))) = provider (syncState (app w))
      \/ provider (syncState (app (handle e w))) = none).
Proof.
  intros He. destruct e; try discriminate He; cbn [handle withApp app].
  - unfold clickPlay. destruct (playButtons (app w) !! i); [|by auto].
    destruct (playDisabled (app w)); [by auto|].
    unfold handleChapterPlay. destruct (truthy (audioUrl c)); by auto.
  - destruct (generating w !! n); [|by auto]. simpl.
    destruct (handleChapterPlay_resolved_syncState p url (app w)) as [-> ->]. by auto.
  - destruct (generating w !! n); by auto.
  - by auto.
  - destruct (extracting w !! n); [|by auto]. simpl.
    unfold handleUpload_resolved.
    rewrite (proj1 (proj2 (proj2 (proj2 (proj2 (proj2 (proj2
               (persistLibrary_frame _ _ _ _)))))))).
    rewrite (proj1 (proj2 (proj2 (proj2 (proj2 (proj2 (proj2 (proj2
               (persistLibrary_frame _ _ _ _))))))))).
    by auto.
  - destruct (extracting w !! n); by auto.
  - destruct (books (app w) !! i); by auto.
  - destruct t as [c s].
    change (localStorage (fst (refreshLibrary c s (app w))) = localStorage (app w)
            /\ (provider (syncState (fst (refreshLibrary c s (app w))))
                = provider (syncState (app w))
                \/ provider (syncState (fst (refreshLibrary c s (app w)))) = none)).
    destruct (refreshLibrary_config c s (app w)) as (-> & -> & _).
    by auto.
  - destruct remoteBooks; by auto.
  - destruct err; simpl; [by auto|].
    unfold refreshLibrary_rejected. case_bool_decide; by auto.
  - by auto.
  - unfold handleDeleteBook_pushFailed. destruct err; simpl; [by auto|].
    unfold persistLibrary_rejected. case_bool_decide; by auto.
  - unfold handleUpload_pushFailed. destruct err; simpl; [by auto|].
    unfold persistLibrary_rejected. case_bool_decide; by auto.
  - destruct (handleDeleteBook_config id confirmed now (app w)) as (-> & -> & _).
    by auto.
Qed.

Lemma step_config (e : Event) (w : World) :
  isSyncUpdate e = false ->
  localStorage (app (step e w)) = localStorage (app w)
  /\ (provider (syncState (app (step e w))) = provider (syncState (app w))
      \/ provider (syncState (app (step e w))) = none).
Proof.
  intros He. rewrite (proj1 (step_app _ _)).
  destruct (rerender_frame (syncState (app w)) (app (handle e w)))
    as (_ & _ & _ & _ & -> & _ & _ & _ & Hr & _).
  assert (provider (syncState (rerender (syncState (app w)) (app (handle e w))))
          = provider (syncState (app (handle e w)))) as ->.
  { unfold routing in Hr. by injection Hr. }
  by apply handle_config.
Qed.

(** X21: only a reconfiguration writes the persisted configuration.  In every
    run from the start that contains no [handleSyncUpdate], local storage is
    what it was at the start, and the provider is either the one the
    component started with or ['none'].  So a downgrade after
    [UNAUTHORIZED] is not persisted: a restart initialises the same state as
    the first start did, with the provider that was stored. *)
Theorem downgrade_is_not_persisted (ls : gmap string string) (es : list Event) :
  Forall (fun e => isSyncUpdate e = false) es ->
  let w := run es (boot ls) in
  localStorage (app w) = ls
  /\ (provider (syncState (app w)) = provider (syncState (initial ls))
      \/ provider (syncState (app w)) = none)
  /\ initial (localStorage (app w)) = initial ls.
Proof.
  intros Hes. cbv zeta.
  assert (localStorage (app (run es (boot ls))) = ls
          /\ (provider (syncState (app (run es (boot ls))))
              = provider (syncState (initial ls))
              \/ provider (syncState (app (run es (boot ls)))) = none)) as [Hl Hp].
  { apply (run_invariant
             (fun w => localStorage (app w) = ls
                       /\ (provider (syncState (app w)) = provider (syncState (initial ls))
                           \/ provider (syncState (app w)) = none))
             (fun e => negb (isSyncUpdate e))).
    - intros e w He [Hl Hp].
      destruct (step_config e w) as [El Ep]; [by destruct (isSyncUpdate e)|].
      rewrite El. split; [exact Hl|].
      destruct Ep as [-> | ->]; [exact Hp | by right].
    - eapply Forall_impl; [exact Hes|]. by intros e ->.
    - unfold boot, useEffect_refresh.
      pose proof (refreshLibrary_config (syncState (initial ls)) false (initial ls)) as H.
      destruct (refreshLibrary (syncState (initial ls)) false (initial ls)) as [st1 i].
      simpl in *. destruct H as (-> & -> & _). by auto. }
  split; [exact Hl|]. split; [exact Hp|]. by rewrite Hl.
Qed.

Lemma handle_lastSynced (e : Event) (w : World) :
  clearsTimestamp e = false ->
  is_Some (lastSynced (syncState (app w))) ->
  is_Some (lastSynced (syncState (app (handle e w)))).
Proof.
  intros He Hw. destruct e; cbn [handle withApp app].
  - unfold clickPlay. destruct (playButtons (app w) !! i); [|exact Hw].
    destruct (playDisabled (app w)); [exact Hw|].
    unfold handleChapterPlay. by destruct (truthy (audioUrl c)).
  - destruct (generating w !! n); [|exact Hw]. simpl.
    by rewrite (proj1 (handleChapterPlay_resolved_syncState _ _ _)).
  - by destruct (generating w !! n).
  - exact Hw.
  - destruct (extracting w !! n); [|exact Hw]. simpl.
    unfold handleUpload_resolved. rewrite persistLibrary_lastSynced.
    by destruct (pushRequest _ _).
  - by destruct (extracting w !! n).
  - by destruct (books (app w) !! i).
  - destruct t as [c s].
    change (is_Some (lastSynced (syncState (fst (refreshLibrary c s (app w)))))).
    by rewrite (proj1 (proj2 (proj2 (refreshLibrary_config _ _ _)))).
  - destruct remoteBooks; [by eexists | exact Hw].
  - destruct err; simpl; [exact Hw|].
    unfold refreshLibrary_rejected. by case_bool_decide.
  - by eexists.
  - unfold handleDeleteBook_pushFailed. destruct err; simpl; [exact Hw|].
    unfold persistLibrary_rejected. by case_bool_decide.
  - unfold handleUpload_pushFailed. destruct err; simpl; [exact Hw|].
    unfold persistLibrary_rejected. by case_bool_decide.
  - by apply handleDeleteBook_config.
  - simpl in He. apply bool_decide_eq_false in He.
    assert (lastSynced (syncState (handleSyncUpdate newState (app w)))
            = default (lastSynced (syncState (app w))) (p_lastSynced newState)) as ->.
    { unfold handleSyncUpdate, setItemIfTruthy, setOrRemoveItem.
      repeat match goal with |- context [if ?c then _ else _] => destruct c end;
        reflexivity. }
    destruct (p_lastSynced newState) as [[z|]|]; simpl; [by eexists | done | exact Hw].
Qed.

Lemma step_lastSynced (e : Event) (w : World) :
  clearsTimestamp e = false ->
  is_Some (lastSynced (syncState (app w))) ->
  is_Some (lastSynced (syncState (app (step e w)))).
Proof.
  intros He Hw. rewrite (proj1 (step_app _ _)).
  destruct (rerender_frame (syncState (app w)) (app (handle e w)))
    as (_ & _ & _ & _ & _ & _ & _ & _ & _ & -> & _).
  by apply handle_lastSynced.
Qed.

(** X22: nothing in the component resets the last-synchronised time.  Once a
    time has been recorded it stays recorded through every later event:
    pulls and pushes of any outcome, uploads, generations, and every
    reconfiguration except one whose update itself carries [lastSynced:
    null]. *)
Theorem timestamp_is_never_reset (es : list Event) (w : World) :
  Forall (fun e => clearsTimestamp e = false) es ->
  is_Some (lastSynced (syncState (app w))) ->
  is_Some (lastSynced (syncState (app (run es w)))).
Proof.
  intros Hes Hw.
  apply (run_invariant (fun w => is_Some (lastSynced (syncState (app w))))
                       (fun e => negb (clearsTimestamp e))).
  - intros e w' He. apply step_lastSynced. by destruct (clearsTimestamp e).
  - eapply Forall_impl; [exact Hes|]. by intros e ->.
  - exact Hw.
Qed.

(** X23: a pull never touches what the reader pane shows.  Sending a pull
    and completing it, with a present result, an absent result or an error,
    leave the selected book, its play buttons, the active chapter and the
    processing status as they were; so after a pull replaced the book list
    the selection is still the book object selected before, whether or not
    the new list contains it. *)
Theorem pull_keeps_reader_pane
    (captured : SyncState) (silent : bool) (r : option (list Book)) (now : Z)
    (m : option string) (st : App) :
  let keeps := fun st' : App =>
    selectedBook st' = selectedBook st
    /\ playButtons st' = playButtons st
    /\ activeChapter st' = activeChapter st
    /\ status st' = status st in
  keeps (fst (refreshLibrary captured silent st))
  /\ keeps (refreshLibrary_resolved r now st)
  /\ keeps (refreshLibrary_rejected m st).
Proof.
  cbv beta zeta. split_and!.
  - unfold refreshLibrary. by destruct (pullRequest captured), silent.
  - unfold refreshLibrary. by destruct (pullRequest captured), silent.
  - unfold refreshLibrary. by destruct (pullRequest captured), silent.
  - unfold refreshLibrary. by destruct (pullRequest captured), silent.
  - by destruct r.
  - by destruct r.
  - by destruct r.
  - by destruct r.
  - unfold refreshLibrary_rejected. by case_bool_decide.
  - unfold refreshLibrary_rejected. by case_bool_decide.
  - unfold refreshLibrary_rejected. by case_bool_decide.
  - unfold refreshLibrary_rejected. by case_bool_decide.
Qed.

(** * The further properties at concrete inputs *)

Lemma delete_removes_by_id_witness :
  let st := setBooks [sampleBook; otherBook] (initial ∅) in
  (otherBook ∈ books st /\ bk_id otherBook <> "b1")
  /\ otherBook ∈ books (fst (handleDeleteBook "b1" true 5 st)).
Proof.
  cbv zeta.
  assert (otherBook ∈ books (setBooks [sampleBook; otherBook] (initial ∅))
          /\ bk_id otherBook <> "b1") as H.
  { split; [apply list_elem_of_further, list_elem_of_here | discriminate]. }
  split; [exact H|].
  destruct (delete_removes_by_id "b1" 5 (setBooks [sampleBook; otherBook] (initial ∅)))
    as (Hiff & _).
  apply (proj2 (Hiff otherBook) H).
Defined.

Lemma delete_keeps_selection_valid_witness :
  let st := setSelectedBook (Some otherBook)
              (setBooks [sampleBook; otherBook] (initial ∅)) in
  (selectedBook st = Some otherBook /\ bk_id otherBook <> "b1")
  /\ selectedBook (fst (handleDeleteBook "b1" true 5 st)) = Some otherBook.
Proof.
  cbv zeta. split; [split; [reflexivity | discriminate]|].
  destruct (delete_keeps_selection_valid "b1" 5
              (setSelectedBook (Some otherBook)
                 (setBooks [sampleBook; otherBook] (initial ∅))))
    as (_ & Hkeep & _).
  apply Hkeep; [reflexivity | discriminate].
Defined.

Lemma delete_pushes_new_list_witness :
  let st := setBooks [sampleBook] (initial ∅) in
  Forall (fun b => bk_id b <> "zz") (books st)
  /\ books (fst (handleDeleteBook "zz" true 5 st)) = [sampleBook].
Proof.
  cbv zeta.
  assert (Forall (fun b => bk_id b <> "zz")
            (books (setBooks [sampleBook] (initial ∅)))) as H
    by (repeat constructor; discriminate).
  split; [exact H|].
  destruct (delete_pushes_new_list "zz" 5 (setBooks [sampleBook] (initial ∅)))
    as (_ & _ & Hsame).
  exact (Hsame H).
Defined.

Lemma delete_survives_push_failure_witness :
  let st := setBooks [sampleBook; otherBook] (initial ∅) in
  is_Some (pushRequest (syncState st) (books (fst (handleDeleteBook "b1" true 5 st))))
  /\ lastSynced (syncState (persistLibrary_rejected (Some "Failed to fetch")
                              (fst (handleDeleteBook "b1" true 5 st))))
     = None.
Proof.
  cbv zeta.
  assert (is_Some (pushRequest
                     (syncState (setBooks [sampleBook; otherBook] (initial ∅)))
                     (books (fst (handleDeleteBook "b1" true 5
                                    (setBooks [sampleBook; otherBook] (initial ∅)))))))
    as H by (by eexists).
  split; [exact H|].
  destruct (delete_survives_push_failure "b1" 5 (Some "Failed to fetch")
              (setBooks [sampleBook; otherBook] (initial ∅)))
    as (_ & _ & Hkeep).
  exact (Hkeep H).
Defined.

Lemma other_errors_are_swallowed_witness :
  Some "Failed to fetch" <> Some "UNAUTHORIZED"
  /\ persistLibrary_caught (ThrownObject (Some "Failed to fetch")) (initial ∅)
     = (initial ∅, false)
  /\ isSyncing (syncState
       (refreshLibrary_caught (ThrownObject (Some "Failed to fetch"))
          (setSyncState (withIsSyncing true) (initial ∅)))) = false.
Proof.
  assert (Some "Failed to fetch" <> Some "UNAUTHORIZED") as H by discriminate.
  split; [exact H|].
  destruct (other_errors_are_swallowed (Some "Failed to fetch") (initial ∅) H)
    as (_ & (Hpush & _) & _).
  split; [exact Hpush|].
  destruct (other_errors_are_swallowed (Some "Failed to fetch")
              (setSyncState (withIsSyncing true) (initial ∅)) H)
    as ((_ & _ & _ & _ & Hflag & _) & _).
  exact Hflag.
Defined.

Lemma push_and_pull_share_routing_witness :
  pushRequest (syncState (initial ∅)) [sampleBook]
  = Some (PushToPublic [sampleBook] defaultRoom)
  /\ pullRequest (syncState (initial ∅)) = Some (PullFromPublic (Some defaultRoom)).
Proof.
  split; [reflexivity|].
  destruct (push_and_pull_share_routing (syncState (initial ∅)) [sampleBook])
    as (_ & Hroom & _).
  apply Hroom. reflexivity.
Defined.

Lemma start_without_stored_provider_witness :
  truthy ((∅ : gmap string string) !! "sync_provider") = false
  /\ provider (syncState (initial ∅)) = public.
Proof.
  split; [reflexivity|].
  exact (proj1 (start_without_stored_provider ∅ eq_refl)).
Defined.

Lemma reconfiguration_timer_pulls_old_routing_witness :
  let n := mkPartial (Some none) None None None None None in
  is_Some (pullRequest (syncState (initial ∅)))
  /\ isSyncing (syncState (fst (runTask (RefreshLibrary (syncState (initial ∅)) false)
                                        (handleSyncUpdate n (initial ∅))))) = true.
Proof.
  cbv zeta.
  assert (is_Some (pullRequest (syncState (initial ∅)))) as H by (by eexists).
  split; [exact H|].
  destruct (reconfiguration_timer_pulls_old_routing
              (mkPartial (Some none) None None None None None) (initial ∅))
    as (_ & _ & _ & Hflag & _).
  exact (Hflag H).
Defined.

Lemma in_flight_flag_is_not_a_count_witness :
  let st2 := fst (refreshLibrary (syncState (initial ∅)) false
               (fst (refreshLibrary (syncState (initial ∅)) false (initial ∅)))) in
  is_Some (pullRequest (syncState (initial ∅)))
  /\ isSyncing (syncState (refreshLibrary_resolved None 0 st2)) = false
  /\ isSyncing (syncState (refreshLibrary_caught ThrownNullish st2)) = true.
Proof.
  cbv zeta.
  assert (is_Some (pullRequest (syncState (initial ∅)))) as H by (by eexists).
  split; [exact H|].
  destruct (in_flight_flag_is_not_a_count (syncState (initial ∅)) (initial ∅)
              None 0 None H)
    as (_ & _ & Hclear & _ & Hstuck & _).
  split; [exact Hclear | exact Hstuck].
Defined.

Lemma upload_book_chapters_witness :
  let result := mkExtraction (Some "Bagh o Bahar")
                  [mkRawChapter "Fasl 1" "text a"; mkRawChapter "Fasl 2" "text b"] in
  (truthy (Some "My copy") = true
   /\ truthy (Some "") = false /\ truthy (x_title result) = true)
  /\ bk_title (newBook (Some "My copy") result (fun _ => 1700000000000)) = "My copy"
  /\ bk_title (newBook (Some "") result (fun _ => 1700000000000)) = "Bagh o Bahar".
Proof.
  cbv zeta. split; [split_and!; reflexivity|].
  destruct (upload_book_chapters (Some "My copy")
              (mkExtraction (Some "Bagh o Bahar")
                 [mkRawChapter "Fasl 1" "text a"; mkRawChapter "Fasl 2" "text b"])
              (fun _ => 1700000000000))
    as (_ & _ & _ & Hcustom & _).
  destruct (upload_book_chapters (Some "")
              (mkExtraction (Some "Bagh o Bahar")
                 [mkRawChapter "Fasl 1" "text a"; mkRawChapter "Fasl 2" "text b"])
              (fun _ => 1700000000000))
    as (_ & _ & _ & _ & Hextracted & _).
  split.
  - apply (inj Some). exact (Hcustom eq_refl).
  - apply (inj Some). exact (Hextracted eq_refl eq_refl).
Defined.

Lemma upload_prepends_and_pushes_witness :
  let k := mkUploadK [sampleBook] (syncState (initial ∅)) in
  let result := mkExtraction None [mkRawChapter "Fasl 1" "text a"] in
  let st' := fst (handleUpload_extracted k None result (fun _ => 1700000000000) 9
                    (initial ∅)) in
  pushRequest (u_syncState k) (books st') = Some (PushToPublic (books st') defaultRoom)
  /\ pushedBooks (PushToPublic (books st') defaultRoom) = Some (books st').
Proof.
  cbv zeta.
  assert (pushRequest (syncState (initial ∅))
            (books (fst (handleUpload_extracted
                           (mkUploadK [sampleBook] (syncState (initial ∅))) None
                           (mkExtraction None [mkRawChapter "Fasl 1" "text a"])
                           (fun _ => 1700000000000) 9 (initial ∅))))
          = Some (PushToPublic
                    (books (fst (handleUpload_extracted
                                   (mkUploadK [sampleBook] (syncState (initial ∅))) None
                                   (mkExtraction None [mkRawChapter "Fasl 1" "text a"])
                                   (fun _ => 1700000000000) 9 (initial ∅))))
                    defaultRoom)) as H by reflexivity.
  split; [exact H|].
  destruct (upload_prepends_and_pushes
              (mkUploadK [sampleBook] (syncState (initial ∅))) None
              (mkExtraction None [mkRawChapter "Fasl 1" "text a"])
              (fun _ => 1700000000000) 9 (initial ∅))
    as (_ & _ & _ & _ & _ & Hpush).
  exact (Hpush _ H).
Defined.

Lemma upload_restores_book_deleted_meanwhile_witness :
  let st := setBooks [sampleBook] (initial ∅) in
  let submitted := handleUpload st in
  let deleted := fst (handleDeleteBook "b1" true 5 (fst submitted)) in
  sampleBook ∈ books st
  /\ books deleted = []
  /\ sampleBook ∈ books (fst (handleUpload_resolved (snd submitted) otherBook 6 deleted)).
Proof.
  cbv zeta.
  assert (sampleBook ∈ books (setBooks [sampleBook] (initial ∅))) as H
    by apply list_elem_of_here.
  split; [exact H|]. split; [reflexivity|].
  destruct (upload_restores_book_deleted_meanwhile "b1" 5 6 otherBook
              (setBooks [sampleBook] (initial ∅)) (initial ∅))
    as (_ & _ & _ & Hback & _).
  exact (Hback sampleBook H).
Defined.

Lemma generation_overwrites_pull_applied_meanwhile_witness :
  let st := setSelectedBook (Some sampleBook) (setBooks [sampleBook] (initial ∅)) in
  truthy (audioUrl chapterOne) = false
  /\ length (books (handleChapterPlay_resolved
                      (mkPlayK chapterOne (books st) (selectedBook st)) "blob:one"
                      (refreshLibrary_resolved (Some []) 7
                         (fst (handleChapterPlay chapterOne st)))))
     = 1%nat.
Proof.
  cbv zeta. split; [reflexivity|].
  destruct (generation_overwrites_pull_applied_meanwhile chapterOne
              (setSelectedBook (Some sampleBook) (setBooks [sampleBook] (initial ∅)))
              [] 7 "blob:one" eq_refl)
    as (_ & _ & _ & Hlen & _).
  exact Hlen.
Defined.

Lemma generation_fills_cache_witness :
  let k := mkPlayK chapterOne [sampleBook] (Some sampleBook) in
  ("blob:one" <> "" /\ (exists b, b ∈ k_books k /\ bk_id b = bk_id sampleBook))
  /\ exists b', selectedBook (handleChapterPlay_resolved k "blob:one" (initial ∅)) = Some b'
               /\ b' ∈ books (handleChapterPlay_resolved k "blob:one" (initial ∅))
               /\ bk_id b' = bk_id sampleBook.
Proof.
  cbv zeta.
  assert ("blob:one" <> "") as Hurl by discriminate.
  assert (exists b, b ∈ k_books (mkPlayK chapterOne [sampleBook] (Some sampleBook))
                    /\ bk_id b = bk_id sampleBook) as Hin.
  { exists sampleBook. split; [apply list_elem_of_here | reflexivity]. }
  split; [split; [exact Hurl | exact Hin]|].
  exact (proj1 (generation_fills_cache
                  (mkPlayK chapterOne [sampleBook] (Some sampleBook)) "blob:one"
                  (initial ∅) sampleBook Hurl eq_refl Hin)).
Defined.

Lemma generation_result_dropped_without_book_witness :
  let k := mkPlayK chapterOne [otherBook] (Some sampleBook) in
  Forall (fun b => bk_id b <> bk_id sampleBook) (k_books k)
  /\ activeChapter (handleChapterPlay_resolved k "blob:one" (initial ∅)) = None.
Proof.
  cbv zeta.
  assert (Forall (fun b => bk_id b <> bk_id sampleBook)
            (k_books (mkPlayK chapterOne [otherBook] (Some sampleBook)))) as H
    by (repeat constructor; discriminate).
  split; [exact H|].
  destruct (generation_result_dropped_without_book
              (mkPlayK chapterOne [otherBook] (Some sampleBook)) "blob:one" (initial ∅)
              (or_intror (ex_intro _ sampleBook (conj eq_refl H))))
    as (_ & _ & Hactive & _).
  exact Hactive.
Defined.

Lemma downgrade_is_not_persisted_witness :
  let ls : gmap string string :=
    {[ "sync_provider" := "github"; "sync_github_token" := "tok";
       "sync_gist_id" := "g1" ]} in
  let es := [PullRejected (ThrownObject (Some "UNAUTHORIZED")); Timer (RefreshLibrary
               (mkSyncState github None (Some "tok") (Some "g1") None false) true)] in
  Forall (fun e => isSyncUpdate e = false) es
  /\ provider (syncState (app (run es (boot ls)))) = none
  /\ provider (syncState (initial (localStorage (app (run es (boot ls)))))) = github.
Proof.
  cbv zeta.
  assert (Forall (fun e => isSyncUpdate e = false)
            [PullRejected (ThrownObject (Some "UNAUTHORIZED")); Timer (RefreshLibrary
               (mkSyncState github None (Some "tok") (Some "g1") None false) true)])
    as H by (repeat constructor).
  split; [exact H|]. split; [reflexivity|].
  destruct (downgrade_is_not_persisted
              {[ "sync_provider" := "github"; "sync_github_token" := "tok";
                 "sync_gist_id" := "g1" ]} _ H)
    as (_ & _ & Hreload).
  rewrite Hreload. reflexivity.
Defined.

Lemma timestamp_is_never_reset_witness :
  let w := mkWorld (refreshLibrary_resolved (Some []) 5 (initial ∅)) [] [] in
  let es := [SyncUpdate (mkPartial (Some none) None None None None None);
             PullRejected (ThrownObject (Some "UNAUTHORIZED"))] in
  (Forall (fun e => clearsTimestamp e = false) es
   /\ is_Some (lastSynced (syncState (app w))))
  /\ is_Some (lastSynced (syncState (app (run es w)))).
Proof.
  cbv zeta.
  assert (Forall (fun e => clearsTimestamp e = false)
            [SyncUpdate (mkPartial (Some none) None None None None None);
             PullRejected (ThrownObject (Some "UNAUTHORIZED"))]) as H1 by (repeat constructor).
  assert (is_Some (lastSynced (syncState
            (app (mkWorld (refreshLibrary_resolved (Some []) 5 (initial ∅)) [] [])))))
    as H2 by (by eexists).
  split; [split; [exact H1 | exact H2]|].
  exact (timestamp_is_never_reset _ _ H1 H2).
Defined.

Lemma attach_audio_by_identity_witness :
  let k := mkPlayK chapterOne [otherBook; sampleBook] (Some sampleBook) in
  (k_books k !! 1%nat = Some sampleBook /\ chapters sampleBook !! 0%nat = Some chapterOne)
  /\ exists b', books (handleChapterPlay_resolved k "blob:one" (initial ∅)) !! 1%nat
                = Some b'
               /\ chapters b' !! 0%nat
                  = Some (mkChapter "c1" "One" "text one" (Some "blob:one") None).
Proof.
  cbv zeta. split; [split; reflexivity|].
  destruct (attach_audio_by_identity
              (mkPlayK chapterOne [otherBook; sampleBook] (Some sampleBook))
              "blob:one" (initial ∅))
    as (_ & _ & Hpos).
  destruct (Hpos 1%nat sampleBook eq_refl) as (_ & Hhit).
  destruct (Hhit sampleBook eq_refl eq_refl)
    as (b' & Hb' & _ & _ & _ & _ & _ & _ & Hch).
  exists b'. split; [exact Hb'|].
  exact (proj2 (Hch 0%nat chapterOne eq_refl) eq_refl).
Defined.
